(** * Crypto price relay: the two variants of [server.js]

    A shallow embedding of the Express relay.  [src/server.js] queries
    CoinGecko, [src/unnamed/part_000] queries CoinMarketCap.  Both define
    [fetchCryptoPrices] and the routes [GET /] and [GET /prices].

    The parsed JSON body is a JavaScript value; the program reads it with
    property access, truthiness tests, [&&], [!==] and [>], all of which are
    modelled below as the language defines them on values produced by
    [JSON.parse].  The outbound call is an oracle ([Upstream]); the effects of
    a handler (the outbound call, [console.error]) are recorded in a log. *)

From Stdlib Require Import String Ascii List Bool Arith ZArith QArith Lia.
From Stdlib Require Import DecimalString.
Import ListNotations.
Set Warnings "-register-all".
Local Open Scope list_scope.
Local Open Scope string_scope.

(** ** JavaScript values *)

Module JS.

(** A JavaScript number: a finite double (a rational), an infinity or NaN.
    [JSON.parse] yields infinities for literals out of range; it never yields
    NaN, which appears only as the result of a coercion. *)
Inductive number : Type :=
  | Finite (q : Q)
  | PosInfinity
  | NegInfinity
  | NaN.

Definition of_nat (n : nat) : number := Finite (Z.of_nat n # 1).

(** The values reachable from a parsed JSON body.  An object is the list of
    its own properties in insertion order; the first binding of a key is the
    one in force. *)
Inductive Value : Type :=
  | Undefined
  | Null
  | Bool (b : bool)
  | Num (n : number)
  | Str (s : string)
  | Arr (elements : list Value)
  | Obj (props : list (string * Value)).

Definition Props : Type := list (string * Value).

(** A thrown value.  Everything this program throws or receives as a
    rejection is an [Error] object; the handler reads its [message]. *)
Inductive Exn : Type :=
  | Error (message : string).

Definition message (e : Exn) : string :=
  match e with Error m => m end.

(** Completion of an evaluation: a value, or an abrupt completion. *)
Inductive Result (A : Type) : Type :=
  | Ok (a : A)
  | Throw (e : Exn).
Arguments Ok {A} a.
Arguments Throw {A} e.

Definition rbind {A B} (r : Result A) (k : A -> Result B) : Result B :=
  match r with
  | Ok a => k a
  | Throw e => Throw e
  end.

Declare Scope js_scope.
Delimit Scope js_scope with js.
Notation "x <- c ;; k" := (rbind c (fun x => k))
  (at level 61, c at next level, right associativity) : js_scope.
Local Open Scope js_scope.

(** *** Truthiness (ToBoolean) *)

Definition number_truthy (n : number) : bool :=
  match n with
  | Finite q => negb (Qnum q =? 0)%Z
  | PosInfinity | NegInfinity => true
  | NaN => false
  end.

Definition truthy (v : Value) : bool :=
  match v with
  | Undefined | Null => false
  | Bool b => b
  | Num n => number_truthy n
  | Str s => negb (s =? "")
  | Arr _ | Obj _ => true
  end.

(** *** Property access *)

Fixpoint lookup (k : string) (ps : Props) : option Value :=
  match ps with
  | [] => None
  | (k', v) :: rest => if k =? k' then Some v else lookup k rest
  end.

(** [o[k] = v] on a plain object: an existing property keeps its place, a
    new one goes last (the order of keys that are not array indices, as
    all keys assigned by this program are). *)
Fixpoint assign (k : string) (v : Value) (ps : Props) : Props :=
  match ps with
  | [] => [(k, v)]
  | (k', v') :: rest =>
      if k =? k' then (k, v) :: rest else (k', v') :: assign k v rest
  end.

Definition keys (ps : Props) : list string := map fst ps.

Definition is_digit (c : ascii) : bool :=
  ((48 <=? nat_of_ascii c) && (nat_of_ascii c <=? 57))%nat.

Fixpoint digits_value (s : string) (acc : nat) : option nat :=
  match s with
  | EmptyString => Some acc
  | String c rest =>
      if is_digit c
      then digits_value rest (10 * acc + (nat_of_ascii c - 48))
      else None
  end.

(** A property key is an array index when it is the canonical decimal
    spelling of a natural number: ["0"], or digits without a leading zero. *)
Definition array_index (k : string) : option nat :=
  match k with
  | EmptyString => None
  | String c rest =>
      if (nat_of_ascii c =? 48)%nat
      then match rest with EmptyString => Some 0%nat | _ => None end
      else digits_value k 0
  end.

Definition typeName (v : Value) : string :=
  match v with
  | Undefined => "undefined"
  | _ => "null"
  end.

(** The message of the TypeError raised by a read through [null] or
    [undefined], in the wording of the engine Node.js runs on. *)
Definition cannot_read (v : Value) (k : string) : Exn :=
  Error ("Cannot read properties of " ++ typeName v
         ++ " (reading '" ++ k ++ "')").

(** [v[k]] / [v.k].  Exact for every key that names no inherited property of
    the built-in prototypes; the keys this program reads (identifiers,
    currency codes, [status], [error_code], [error_message], [data],
    [length], [0], [quote], [price], [error]) are all of that kind. *)
Definition get (v : Value) (k : string) : Result Value :=
  match v with
  | Undefined | Null => Throw (cannot_read v k)
  | Bool _ | Num _ => Ok Undefined
  | Str s =>
      if k =? "length" then Ok (Num (of_nat (String.length s)))
      else match array_index k with
           | Some i =>
               match String.get i s with
               | Some c => Ok (Str (String c EmptyString))
               | None => Ok Undefined
               end
           | None => Ok Undefined
           end
  | Arr els =>
      if k =? "length" then Ok (Num (of_nat (List.length els)))
      else match array_index k with
           | Some i => Ok (nth i els Undefined)
           | None => Ok Undefined
           end
  | Obj ps =>
      match lookup k ps with
      | Some x => Ok x
      | None => Ok Undefined
      end
  end.

(** [a && b]: the left operand when it is falsy, the right one otherwise.
    The right operand is pure here, so passing its completion is the same as
    evaluating it on demand. *)
Definition and_ (a b : Result Value) : Result Value :=
  x <- a ;; if truthy x then b else Ok x.

Notation "a &&& b" := (and_ a b) (at level 40, left associativity) : js_scope.

(** [a || b]: the left operand when it is truthy, the right one otherwise. *)
Definition or_ (a b : Result Value) : Result Value :=
  x <- a ;; if truthy x then Ok x else b.

(** [v !== 0] *)
Definition strict_ne_zero (v : Value) : bool :=
  match v with
  | Num (Finite q) => negb (Qnum q =? 0)%Z
  | _ => true
  end.

(** *** Coercions *)

(** The two conversions between strings and numbers that the language
    leaves to its numeric grammar.  The program reaches them only through
    [>] and a template literal applied to malformed payloads. *)
Class Coercions : Type := {
  StringToNumber : string -> number;
  NumberToString : number -> string
}.

Definition cannot_convert : Exn :=
  Error "Cannot convert object to primitive value".

Section ToString.
Context `{Coercions}.

(** ToString.  A parsed object has no callable own property, so an own
    [toString] shadows the inherited method and the conversion throws;
    an array is joined with commas, [null] and [undefined] elements
    giving the empty string. *)
Fixpoint ToString (v : Value) : Result string :=
  match v with
  | Undefined => Ok "undefined"
  | Null => Ok "null"
  | Bool true => Ok "true"
  | Bool false => Ok "false"
  | Num n => Ok (NumberToString n)
  | Str s => Ok s
  | Arr els =>
      (fix join (l : list Value) : Result string :=
         match l with
         | [] => Ok ""
         | x :: rest =>
             sx <- match x with
                   | Undefined | Null => Ok ""
                   | _ => ToString x
                   end ;;
             match rest with
             | [] => Ok sx
             | _ => sr <- join rest ;; Ok (sx ++ "," ++ sr)
             end
         end) els
  | Obj ps =>
      match lookup "toString" ps with
      | Some _ => Throw cannot_convert
      | None => Ok "[object Object]"
      end
  end.

(** ToNumber, through ToPrimitive with hint number for arrays and
    objects. *)
Definition ToNumber (v : Value) : Result number :=
  match v with
  | Undefined => Ok NaN
  | Null => Ok (of_nat 0)
  | Bool true => Ok (of_nat 1)
  | Bool false => Ok (of_nat 0)
  | Num n => Ok n
  | Str s => Ok (StringToNumber s)
  | Arr _ | Obj _ => s <- ToString v ;; Ok (StringToNumber s)
  end.

Definition number_gt_zero (n : number) : bool :=
  match n with
  | Finite q => (0 <? Qnum q)%Z
  | PosInfinity => true
  | NegInfinity | NaN => false
  end.

(** [v > 0] *)
Definition gt_zero (v : Value) : Result Value :=
  n <- ToNumber v ;; Ok (Bool (number_gt_zero n)).
End ToString.

(** *** Strings *)

Definition lower_ascii (c : ascii) : ascii :=
  let n := nat_of_ascii c in
  if ((65 <=? n) && (n <=? 90))%nat then ascii_of_nat (n + 32) else c.

(** [s.toLowerCase()] on the ASCII strings the program applies it to. *)
Fixpoint toLowerCase (s : string) : string :=
  match s with
  | EmptyString => EmptyString
  | String c rest => String (lower_ascii c) (toLowerCase rest)
  end.

(** [xs.join(sep)] on an array of strings. *)
Fixpoint join (sep : string) (xs : list string) : string :=
  match xs with
  | [] => ""
  | [x] => x
  | x :: rest => x ++ sep ++ join sep rest
  end.

(** The decimal spelling of an integer status code in a template literal. *)
Definition show_nat (n : nat) : string :=
  NilEmpty.string_of_uint (Nat.to_uint n).

(** [s.includes(sub)] as a proposition. *)
Definition includes (s sub : string) : Prop :=
  exists pre post, s = pre ++ sub ++ post.

End JS.

Import JS.
Local Open Scope js_scope.

(** A chain of property reads, [v.k1.k2...]: the first read through [null]
    or [undefined] throws. *)
Fixpoint path (v : Value) (ks : list string) : Result Value :=
  match ks with
  | [] => Ok v
  | k :: rest => x <- get v k ;; path x rest
  end.

(** [for (const x of xs) { ... }] over a local that the body updates. *)
Fixpoint for_of {A S : Type} (xs : list A) (body : A -> S -> Result S) (s : S)
  : Result S :=
  match xs with
  | [] => Ok s
  | x :: rest => s' <- body x s ;; for_of rest body s'
  end.

(** ** The process environment *)

Module Process.

(** [process.env]: every variable that is set holds a string. *)
Definition Env : Type := list (string * string).

Fixpoint lookup_env (k : string) (env : Env) : option string :=
  match env with
  | [] => None
  | (k', s) :: rest => if k =? k' then Some s else lookup_env k rest
  end.

(** [process.env.K] *)
Definition env_get (env : Env) (k : string) : Result Value :=
  match lookup_env k env with
  | Some s => Ok (Str s)
  | None => Ok Undefined
  end.

(** What the platform does with a request to listen on a port: the server
    comes to listen, or it does not (a port outside 0-65535 is refused, a
    port in use is never bound). *)
Definition Listen : Type := Value -> Result unit.

End Process.

(** ** The outbound call and the effects of a handler *)

Module Http.

(** What [node-fetch] is asked for. *)
Record Request : Type := {
  url : string;
  headers : list (string * string)
}.

(** What [node-fetch] resolves to: the status line and the outcome of
    reading the body, as text ([response.text()]) and as parsed JSON
    ([response.json()], which throws on a malformed body). *)
Record Response : Type := {
  status : nat;
  statusText : string;
  text : Result string;
  json : Result Value
}.

(** [response.ok]: a status in the range 200-299. *)
Definition ok (r : Response) : bool :=
  ((200 <=? status r) && (status r <=? 299))%nat.

(** The upstream: every request is rejected (a network-level failure) or
    answered. *)
Definition Upstream : Type := Request -> Result Response.

Inductive Event : Type :=
  | Fetched (rq : Request)
  | ConsoleError (args : list string).

(** An asynchronous computation: it runs against the upstream, records
    what it did, and completes with a value or a rejection. *)
Definition Eff (A : Type) : Type := Upstream -> list Event * Result A.

Definition ret {A} (a : A) : Eff A := fun _ => ([], Ok a).

Definition throw {A} (e : Exn) : Eff A := fun _ => ([], Throw e).

Definition lift {A} (r : Result A) : Eff A := fun _ => ([], r).

Definition bind {A B} (m : Eff A) (k : A -> Eff B) : Eff B :=
  fun up =>
    let (l1, r) := m up in
    match r with
    | Ok a => let (l2, r2) := k a up in ((l1 ++ l2)%list, r2)
    | Throw e => (l1, Throw e)
    end.

(** [try { m } catch (error) { h error }] *)
Definition try_catch {A} (m : Eff A) (h : Exn -> Eff A) : Eff A :=
  fun up =>
    let (l1, r) := m up in
    match r with
    | Ok a => (l1, Ok a)
    | Throw e => let (l2, r2) := h e up in ((l1 ++ l2)%list, r2)
    end.

Definition fetch (rq : Request) : Eff Response :=
  fun up => ([Fetched rq], up rq).

Definition console_error (args : list string) : Eff unit :=
  fun _ => ([ConsoleError args], Ok tt).

Notation "x <~ c ;; k" := (bind c (fun x => k))
  (at level 61, c at next level, right associativity) : js_scope.

(** The inbound request; neither route reads it. *)
Record Incoming : Type := {
  in_path : string;
  in_headers : list (string * string)
}.

(** What a route answers: [res.send(s)] answers [Text s] with the default
    status 200, [res.status(c).json(v)] answers [Json v], the
    serialisation of [v], with status [c]. *)
Inductive Body : Type :=
  | Text (s : string)
  | Json (v : Value).

Record Reply : Type := {
  code : nat;
  body : Body
}.

Definition send (s : string) : Reply := {| code := 200; body := Text s |}.

Definition status_json (c : nat) (v : Value) : Reply :=
  {| code := c; body := Json v |}.

Definition log_of {A} (x : list Event * Result A) : list Event := fst x.
Definition result_of {A} (x : list Event * Result A) : Result A := snd x.

End Http.

Import Http.

(** ** [src/server.js]: the CoinGecko variant *)

Module CoinGecko.

Definition COINGECKO_API_URL : string :=
  "https://api.coingecko.com/api/v3/simple/price".
Definition VS_CURRENCY : string := "usd".

Definition CRYPTO_IDS : list string :=
  [ "bitcoin"; "ethereum"; "litecoin"; "shiba-inu"; "dogecoin"; "tron";
    "ripple"; "the-open-network"; "tether" ].

(** The body of the [for] loop. *)
Definition normalize (data : Value) (id : string) (formattedPrices : Props)
  : Result Props :=
  c <- get data id &&& path data [id; VS_CURRENCY] ;;
  if truthy c then
    p <- path data [id; VS_CURRENCY] ;;
    Ok (assign id p formattedPrices)
  else
    Ok (assign id (Str "N/A") formattedPrices).

(** The [try] block. *)
Definition fetchCryptoPrices_try : Eff Value :=
  let idsParam := join "," CRYPTO_IDS in
  let url := COINGECKO_API_URL ++ "?ids=" ++ idsParam
             ++ "&vs_currencies=" ++ VS_CURRENCY in
  response <~ fetch {| url := url; headers := [] |} ;;
  _ <~ (if negb (ok response) then
          errorText <~ lift (text response) ;;
          throw (Error ("CoinGecko API error: " ++ show_nat (status response)
                        ++ " " ++ statusText response ++ " - " ++ errorText))
        else ret tt) ;;
  data <~ lift (json response) ;;
  formattedPrices <~ lift (for_of CRYPTO_IDS (normalize data) []) ;;
  ret (Obj formattedPrices).

Definition ErrorResult (details : string) : Value :=
  Obj [ ("error", Str "Failed to fetch cryptocurrency prices");
        ("details", Str details) ].

(** The [catch] block. *)
Definition fetchCryptoPrices_catch (error : Exn) : Eff Value :=
  _ <~ console_error ["Error fetching crypto prices:"; message error] ;;
  ret (ErrorResult (message error)).

Definition fetchCryptoPrices : Eff Value :=
  try_catch fetchCryptoPrices_try fetchCryptoPrices_catch.

(** [app.get('/', ...)] *)
Definition root (req : Incoming) : Eff Reply :=
  ret (send "Welcome to the Crypto Price API! Access /prices to get the latest data.").

(** [app.get('/prices', ...)] *)
Definition prices (req : Incoming) : Eff Reply :=
  prices <~ fetchCryptoPrices ;;
  e <~ lift (get prices "error") ;;
  if truthy e then ret (status_json 500 prices)
  else ret (status_json 200 prices).

Section Startup.
Context `{Coercions}.

(** [const PORT = process.env.PORT || 3000] *)
Definition PORT (env : Process.Env) : Result Value :=
  or_ (Process.env_get env "PORT") (Ok (Num (of_nat 3000))).

(** The callback passed to [app.listen]: the lines it writes with
    [console.log], each a template literal over [PORT]. *)
Definition listening_callback (PORT : Value) : Result (list string) :=
  l1 <- (p <- ToString PORT ;; Ok ("Server is running on port " ++ p)) ;;
  l2 <- (p <- ToString PORT ;;
         Ok ("Access prices at: http://localhost:" ++ p ++ "/prices")) ;;
  l3 <- (p <- ToString PORT ;;
         Ok ("Root access at: http://localhost:" ++ p ++ "/")) ;;
  Ok [l1; l2; l3].

(** [app.listen(PORT, callback)]: the callback runs only once the server
    has come to listen; otherwise nothing is written. *)
Definition listen (platform : Process.Listen) (PORT : Value)
  : Result (list string) :=
  _ <- platform PORT ;; listening_callback PORT.

End Startup.

End CoinGecko.

(** ** [src/unnamed/part_000]: the CoinMarketCap variant *)

Module CoinMarketCap.

Definition CMC_API_KEY : string := "fb3d7be2-38b1-4afd-b436-7ac1c56a8c49".
Definition CMC_API_URL : string :=
  "https://pro-api.coinmarketcap.com/v1/cryptocurrency/quotes/latest".

Definition CRYPTO_SYMBOLS : list string :=
  [ "BTC"; "ETH"; "LTC"; "SHIB"; "DOGE"; "TRX"; "XRP"; "TON"; "USDT" ].
Definition CONVERT_CURRENCY : string := "USD".

Definition ErrorResult (details : string) : Value :=
  Obj [ ("error", Str "Failed to fetch cryptocurrency prices");
        ("details", Str details) ].

Section WithCoercions.
Context `{Coercions}.

(** The status check on the parsed body:
    [if (data.status && data.status.error_code !== 0) throw ...]. *)
Definition check_status (data : Value) : Result unit :=
  c <- get data "status"
       &&& (ec <- path data ["status"; "error_code"] ;;
            Ok (Bool (strict_ne_zero ec))) ;;
  if truthy c then
    em <- path data ["status"; "error_message"] ;;
    s <- ToString em ;;
    Throw (Error ("CoinMarketCap API internal error: " ++ s))
  else Ok tt.

(** The condition of the [if] inside the loop. *)
Definition has_quote (data : Value) (symbol : string) : Result Value :=
  get data "data"
  &&& path data ["data"; symbol]
  &&& (n <- path data ["data"; symbol; "length"] ;; gt_zero n)
  &&& path data ["data"; symbol; "0"; "quote"]
  &&& path data ["data"; symbol; "0"; "quote"; CONVERT_CURRENCY].

(** The body of the [for] loop. *)
Definition normalize (data : Value) (symbol : string) (formattedPrices : Props)
  : Result Props :=
  c <- has_quote data symbol ;;
  if truthy c then
    p <- path data ["data"; symbol; "0"; "quote"; CONVERT_CURRENCY; "price"] ;;
    Ok (assign (toLowerCase symbol) p formattedPrices)
  else
    Ok (assign (toLowerCase symbol) (Str "N/A") formattedPrices).

(** The [try] block. *)
Definition fetchCryptoPrices_try : Eff Value :=
  let symbolsParam := join "," CRYPTO_SYMBOLS in
  let url := CMC_API_URL ++ "?symbol=" ++ symbolsParam
             ++ "&convert=" ++ CONVERT_CURRENCY in
  response <~ fetch {| url := url;
                       headers := [ ("X-CMC_PRO_API_KEY", CMC_API_KEY);
                                    ("Accept", "application/json") ] |} ;;
  _ <~ (if negb (ok response) then
          errorText <~ lift (text response) ;;
          throw (Error ("CoinMarketCap API error: "
                        ++ show_nat (status response)
                        ++ " " ++ statusText response ++ " - " ++ errorText))
        else ret tt) ;;
  data <~ lift (json response) ;;
  _ <~ lift (check_status data) ;;
  formattedPrices <~ lift (for_of CRYPTO_SYMBOLS (normalize data) []) ;;
  ret (Obj formattedPrices).

(** The [catch] block. *)
Definition fetchCryptoPrices_catch (error : Exn) : Eff Value :=
  _ <~ console_error ["Error fetching crypto prices from CoinMarketCap:";
                      message error] ;;
  ret (ErrorResult (message error)).

Definition fetchCryptoPrices : Eff Value :=
  try_catch fetchCryptoPrices_try fetchCryptoPrices_catch.

(** [app.get('/', ...)] *)
Definition root (req : Incoming) : Eff Reply :=
  ret (send "Welcome to the Crypto Price API! Access /prices to get the latest data from CoinMarketCap.").

(** [app.get('/prices', ...)] *)
Definition prices (req : Incoming) : Eff Reply :=
  prices <~ fetchCryptoPrices ;;
  e <~ lift (get prices "error") ;;
  if truthy e then ret (status_json 500 prices)
  else ret (status_json 200 prices).

(** [const PORT = process.env.PORT || 3000] *)
Definition PORT (env : Process.Env) : Result Value :=
  or_ (Process.env_get env "PORT") (Ok (Num (of_nat 3000))).

(** The callback passed to [app.listen]: the lines it writes with
    [console.log], each a template literal over [PORT]. *)
Definition listening_callback (PORT : Value) : Result (list string) :=
  l1 <- (p <- ToString PORT ;; Ok ("Server is running on port " ++ p)) ;;
  l2 <- (p <- ToString PORT ;;
         Ok ("Access prices at: http://localhost:" ++ p ++ "/prices")) ;;
  Ok [l1; l2].

(** [app.listen(PORT, callback)]: the callback runs only once the server
    has come to listen; otherwise nothing is written. *)
Definition listen (platform : Process.Listen) (PORT : Value)
  : Result (list string) :=
  _ <- platform PORT ;; listening_callback PORT.

End WithCoercions.

End CoinMarketCap.

(** ** Vocabulary of the specification *)

(** The value the loop stores for each identifier, collected in order:
    the functional reading of a loop whose body assigns one fresh key per
    identifier. *)
Fixpoint collect (key : string -> string) (entry : string -> Result Value)
  (ids : list string) : Result Props :=
  match ids with
  | [] => Ok []
  | s :: rest =>
      v <- entry s ;;
      r <- collect key entry rest ;;
      Ok ((key s, v) :: r)
  end.

(** The result carries an [error] field. *)
Definition carries_error (v : Value) : bool :=
  match v with
  | Obj ps => match lookup "error" ps with Some _ => true | None => false end
  | _ => false
  end.

(** The parsed body carries no provider-level error: it has no [status],
    or a [status] whose [error_code] is the number zero. *)
Definition no_provider_error (data : Value) : bool :=
  match data with
  | Obj ps =>
      match lookup "status" ps with
      | None => true
      | Some (Obj st) =>
          match lookup "error_code" st with
          | Some ec => negb (strict_ne_zero ec)
          | None => false
          end
      | Some _ => false
      end
  | _ => false
  end.

(** The parsed body carries a provider-level error status with the
    non-zero error code [ec]. *)
Definition provider_error (data : Value) (ec : number) : Prop :=
  exists ps st,
    data = Obj ps /\ lookup "status" ps = Some (Obj st)
    /\ lookup "error_code" st = Some (Num ec)
    /\ strict_ne_zero (Num ec) = true.

(** An upstream that gives the same answer to whatever it is asked. *)
Definition answers (r : Response) : Upstream := fun _ => Ok r.

(** An upstream that cannot be reached. *)
Definition unreachable (cause : string) : Upstream :=
  fun _ => Throw (Error cause).

Definition num (z : Z) : Value := Num (Finite (z # 1)).

(** A 2xx answer whose body parses to [data]. *)
Definition success (data : Value) : Response :=
  {| status := 200; statusText := "OK";
     text := Ok "(the body as text)"; json := Ok data |}.

(** A non-2xx answer with a plain-text body. *)
Definition failure (st : nat) (reason body_text : string) : Response :=
  {| status := st; statusText := reason; text := Ok body_text;
     json := Throw (Error "Unexpected token in JSON at position 0") |}.

Definition any_request : Incoming :=
  {| in_path := "/prices"; in_headers := [] |}.

(** The conversions restricted to unsigned decimal integers, for running
    the CoinMarketCap variant on concrete payloads. *)
Definition integer_coercions : Coercions :=
  {| StringToNumber := fun s =>
       match digits_value s 0 with
       | Some n => of_nat n
       | None => NaN
       end;
     NumberToString := fun n =>
       match n with
       | Finite q => show_nat (Z.to_nat (Qnum q / Z.pos (Qden q)))
       | PosInfinity => "Infinity"
       | NegInfinity => "-Infinity"
       | NaN => "NaN"
       end |}.

Module CoinGeckoSpec.
Import CoinGecko.

(** The value stored for [id]: one iteration of the loop, without the
    assignment. *)
Definition entry (data : Value) (id : string) : Result Value :=
  c <- get data id &&& path data [id; VS_CURRENCY] ;;
  if truthy c then path data [id; VS_CURRENCY] else Ok (Str "N/A").

(** The payload contains a price entry for [id]:
    [{ ..., id: { usd: n, ... }, ... }]. *)
Definition price_entry (data : Value) (id : string) : option number :=
  match data with
  | Obj ps =>
      match lookup id ps with
      | Some (Obj e) =>
          match lookup VS_CURRENCY e with
          | Some (Num n) => Some n
          | _ => None
          end
      | _ => None
      end
  | _ => None
  end.

(** The payload is an object that omits [id]. *)
Definition omits (data : Value) (id : string) : bool :=
  match data with
  | Obj ps => match lookup id ps with Some _ => false | None => true end
  | _ => false
  end.

Definition priced (id : string) (z : Z) : string * Value :=
  (id, Obj [("usd", num z)]).

(** Every configured identifier with a non-zero price. *)
Definition payload_full : Value :=
  Obj [ priced "bitcoin" 30000; priced "ethereum" 2000;
        priced "litecoin" 90; priced "shiba-inu" 1; priced "dogecoin" 2;
        priced "tron" 3; priced "ripple" 4; priced "the-open-network" 5;
        priced "tether" 1 ].

(** Every configured identifier, [tether] quoted at zero. *)
Definition payload_zero_tether : Value :=
  Obj [ priced "bitcoin" 30000; priced "ethereum" 2000;
        priced "litecoin" 90; priced "shiba-inu" 1; priced "dogecoin" 2;
        priced "tron" 3; priced "ripple" 4; priced "the-open-network" 5;
        priced "tether" 0 ].

(** [bitcoin] omitted. *)
Definition payload_no_bitcoin : Value :=
  Obj [ priced "ethereum" 2000;
        priced "litecoin" 90; priced "shiba-inu" 1; priced "dogecoin" 2;
        priced "tron" 3; priced "ripple" 4; priced "the-open-network" 5;
        priced "tether" 1 ].

(** [bitcoin] omitted, [ethereum] quoted at zero. *)
Definition payload_no_bitcoin_zero_ethereum : Value :=
  Obj [ priced "ethereum" 0;
        priced "litecoin" 90; priced "shiba-inu" 1; priced "dogecoin" 2;
        priced "tron" 3; priced "ripple" 4; priced "the-open-network" 5;
        priced "tether" 1 ].

(** A 2xx body in the provider's error envelope. *)
Definition payload_rate_limited : Value :=
  Obj [ ("status", Obj [ ("error_code", num 429);
                         ("error_message", Str "You have exceeded the rate limit") ]) ].

Definition all_NA : Value :=
  Obj (map (fun id => (id, Str "N/A")) CRYPTO_IDS).

(** The price map of [payload_full]. *)
Definition payload_prices : Value :=
  Obj [ ("bitcoin", num 30000); ("ethereum", num 2000); ("litecoin", num 90);
        ("shiba-inu", num 1); ("dogecoin", num 2); ("tron", num 3);
        ("ripple", num 4); ("the-open-network", num 5); ("tether", num 1) ].

End CoinGeckoSpec.

Module CoinMarketCapSpec.
Import CoinMarketCap.

(** The value stored for [symbol]: one iteration of the loop, without the
    assignment. *)
Definition entry `{Coercions} (data : Value) (symbol : string) : Result Value :=
  c <- has_quote data symbol ;;
  if truthy c
  then path data ["data"; symbol; "0"; "quote"; CONVERT_CURRENCY; "price"]
  else Ok (Str "N/A").

(** The payload contains a price entry for [symbol]:
    [{ data: { symbol: [ { quote: { USD: { price: n } } }, ... ] } }]. *)
Definition price_entry (data : Value) (symbol : string) : option number :=
  match data with
  | Obj ps =>
      match lookup "data" ps with
      | Some (Obj m) =>
          match lookup symbol m with
          | Some (Arr (Obj listing :: _)) =>
              match lookup "quote" listing with
              | Some (Obj q) =>
                  match lookup CONVERT_CURRENCY q with
                  | Some (Obj u) =>
                      match lookup "price" u with
                      | Some (Num n) => Some n
                      | _ => None
                      end
                  | _ => None
                  end
              | _ => None
              end
          | _ => None
          end
      | _ => None
      end
  | _ => None
  end.

(** The payload has a [data] object that omits [symbol]. *)
Definition omits (data : Value) (symbol : string) : bool :=
  match data with
  | Obj ps =>
      match lookup "data" ps with
      | Some (Obj m) =>
          match lookup symbol m with Some _ => false | None => true end
      | _ => false
      end
  | _ => false
  end.

Definition quoted (symbol : string) (z : Z) : string * Value :=
  (symbol, Arr [ Obj [ ("quote", Obj [ ("USD", Obj [ ("price", num z) ]) ]) ] ]).

Definition status_fine : string * Value :=
  ("status", Obj [ ("error_code", num 0); ("error_message", Null) ]).

(** Every configured symbol quoted, [USDT] at zero. *)
Definition payload_full : Value :=
  Obj [ status_fine;
        ("data", Obj [ quoted "BTC" 30000; quoted "ETH" 2000; quoted "LTC" 90;
                       quoted "SHIB" 1; quoted "DOGE" 2; quoted "TRX" 3;
                       quoted "XRP" 4; quoted "TON" 5; quoted "USDT" 0 ]) ].

(** The price map of [payload_full]. *)
Definition payload_prices : Value :=
  Obj [ ("btc", num 30000); ("eth", num 2000); ("ltc", num 90);
        ("shib", num 1); ("doge", num 2); ("trx", num 3);
        ("xrp", num 4); ("ton", num 5); ("usdt", num 0) ].

(** [BTC] omitted. *)
Definition payload_no_btc : Value :=
  Obj [ status_fine;
        ("data", Obj [ quoted "ETH" 2000; quoted "LTC" 90;
                       quoted "SHIB" 1; quoted "DOGE" 2; quoted "TRX" 3;
                       quoted "XRP" 4; quoted "TON" 5; quoted "USDT" 1 ]) ].

(** A 2xx body in the provider's error envelope. *)
Definition payload_bad_key : Value :=
  Obj [ ("status", Obj [ ("error_code", num 1001);
                         ("error_message", Str "This API Key is invalid.") ]) ].

End CoinMarketCapSpec.

(** ** Vocabulary of the further properties *)

(** The one request the CoinGecko variant sends. *)
Definition coingecko_request : Request :=
  {| url := "https://api.coingecko.com/api/v3/simple/price?ids=bitcoin,ethereum,litecoin,shiba-inu,dogecoin,tron,ripple,the-open-network,tether&vs_currencies=usd";
     headers := [] |}.

(** The one request the CoinMarketCap variant sends. *)
Definition coinmarketcap_request : Request :=
  {| url := "https://pro-api.coinmarketcap.com/v1/cryptocurrency/quotes/latest?symbol=BTC,ETH,LTC,SHIB,DOGE,TRX,XRP,TON,USDT&convert=USD";
     headers := [ ("X-CMC_PRO_API_KEY", "fb3d7be2-38b1-4afd-b436-7ac1c56a8c49");
                  ("Accept", "application/json") ] |}.

Definition is_fetch (e : Event) : bool :=
  match e with
  | Fetched _ => true
  | ConsoleError _ => false
  end.

(** The number of outbound calls in a log. *)
Definition outbound_calls (log : list Event) : nat :=
  List.length (filter is_fetch log).





(** A 2xx answer whose body does not parse. *)
Definition unparsable (cause : string) : Response :=
  {| status := 200; statusText := "OK"; text := Ok "<html>";
     json := Throw (Error cause) |}.

(** A non-2xx answer whose body cannot be read. *)
Definition unreadable (st : nat) (reason cause : string) : Response :=
  {| status := st; statusText := reason; text := Throw (Error cause);
     json := Throw (Error cause) |}.

(** A CoinMarketCap body whose only listing, for [TON], quotes USD
    without a price. *)
Definition payload_ton_unpriced : Value :=
  Obj [ CoinMarketCapSpec.status_fine;
        ("data",
         Obj [ ("TON", Arr [ Obj [ ("quote",
                  Obj [ ("USD", Obj [ ("volume_24h", num 7) ]) ]) ] ]) ]) ].

(** A CoinMarketCap body with an empty listing array, a listing without
    quote and a listing quoted in another currency only. *)
Definition payload_unquoted : Value :=
  Obj [ CoinMarketCapSpec.status_fine;
        ("data",
         Obj [ ("BTC", Arr []);
               ("ETH", Arr [ Obj [ ("name", Str "Ethereum") ] ]);
               ("LTC", Arr [ Obj [ ("quote",
                  Obj [ ("EUR", Obj [ ("price", num 80) ]) ]) ] ]) ]) ].

(** A CoinMarketCap body whose first listing for [BTC] is [null]. *)
Definition payload_null_listing : Value :=
  Obj [ CoinMarketCapSpec.status_fine;
        ("data", Obj [ ("BTC", Arr [Null]);
                       CoinMarketCapSpec.quoted "ETH" 2000 ]) ].

(** A CoinMarketCap body whose status has no error code. *)
Definition payload_status_without_code : Value :=
  Obj [ ("status", Obj [ ("timestamp", Str "2024-01-01T00:00:00.000Z") ]);
        ("data", Obj [ CoinMarketCapSpec.quoted "BTC" 30000 ]) ].

(** The price map in which nothing was found, in either variant. *)
Definition nothing_found (key : string -> string) (ids : list string) : Value :=
  Obj (map (fun id => (key id, Str "N/A")) ids).

(** ** Objects and the loop *)

Lemma assign_fresh k v ps :
  ~ In k (keys ps) -> assign k v ps = (ps ++ [(k, v)])%list.
Proof.
  induction ps as [|[k' v'] ps IH]; simpl; intros Hk; [reflexivity|].
  destruct (String.eqb_spec k k') as [->|_].
  - exfalso; auto.
  - rewrite IH; auto.
Qed.

Lemma keys_app (ps qs : Props) :
  keys (ps ++ qs)%list = (keys ps ++ keys qs)%list.
Proof. apply map_app. Qed.

Lemma lookup_not_in k ps : ~ In k (keys ps) -> lookup k ps = None.
Proof.
  induction ps as [|[k' v'] ps IH]; simpl; intros Hk; [reflexivity|].
  destruct (String.eqb_spec k k') as [->|_]; [exfalso; auto | auto].
Qed.

Section Loop.
Variable key : string -> string.
Variable entry : string -> Result Value.
Variable body : string -> Props -> Result Props.
Hypothesis body_entry :
  forall s acc, body s acc = (v <- entry s ;; Ok (assign (key s) v acc)).

(** A loop that assigns one fresh key per item appends, in order, what
    [collect] gathers; it throws exactly when [collect] does. *)
Lemma for_of_collect ids : forall acc,
  NoDup (map key ids) ->
  (forall s, In s ids -> ~ In (key s) (keys acc)) ->
  for_of ids body acc = (r <- collect key entry ids ;; Ok (acc ++ r)%list).
Proof.
  induction ids as [|s ids IH]; intros acc Hnd Hfresh; simpl.
  - now rewrite app_nil_r.
  - rewrite body_entry. inversion Hnd as [|? ? Hs Hnd']; subst.
    destruct (entry s) as [v|e]; simpl; [|reflexivity].
    rewrite assign_fresh by (apply Hfresh; now left).
    rewrite IH; auto.
    + destruct (collect key entry ids) as [r|e]; simpl; [|reflexivity].
      now rewrite <- app_assoc.
    + intros s' Hs'. rewrite keys_app, in_app_iff. simpl.
      intros [Hin|[Heq|[]]].
      * apply (Hfresh s'); [now right | assumption].
      * apply Hs. rewrite Heq. now apply in_map.
Qed.

Lemma for_of_collect_nil ids :
  NoDup (map key ids) -> for_of ids body [] = collect key entry ids.
Proof.
  intros Hnd. rewrite for_of_collect; auto.
  now destruct (collect key entry ids).
Qed.

Lemma collect_keys ids : forall r,
  collect key entry ids = Ok r -> keys r = map key ids.
Proof.
  induction ids as [|s ids IH]; simpl; intros r Hr.
  - now inversion Hr.
  - destruct (entry s) as [v|e]; simpl in Hr; [|discriminate].
    destruct (collect key entry ids) as [r'|e]; simpl in Hr; [|discriminate].
    inversion Hr; subst; simpl. now rewrite (IH r').
Qed.

Lemma collect_lookup ids : forall r s,
  collect key entry ids = Ok r -> NoDup (map key ids) -> In s ids ->
  exists v, entry s = Ok v /\ lookup (key s) r = Some v.
Proof.
  induction ids as [|a ids IH]; simpl; intros r s Hr Hnd Hin; [contradiction|].
  destruct (entry a) as [v|e] eqn:Ea; simpl in Hr; [|discriminate].
  destruct (collect key entry ids) as [r'|e] eqn:Er; simpl in Hr; [|discriminate].
  inversion Hr; subst; clear Hr. inversion Hnd as [|? ? Ha Hnd']; subst.
  destruct Hin as [->|Hin].
  - exists v. split; [assumption|]. simpl. now rewrite String.eqb_refl.
  - destruct (IH r' s eq_refl Hnd' Hin) as (w & Hw & Hl).
    exists w. split; [assumption|]. simpl.
    destruct (String.eqb_spec (key s) (key a)) as [E|_]; [|assumption].
    exfalso. apply Ha. rewrite <- E. now apply in_map.
Qed.

(** When no entry throws, neither does the collection. *)
Lemma collect_total ids :
  (forall s, In s ids -> exists v, entry s = Ok v) ->
  exists r, collect key entry ids = Ok r.
Proof.
  induction ids as [|a ids IH]; simpl; intros Hall; [now eexists|].
  destruct (Hall a (or_introl eq_refl)) as (v & ->); simpl.
  destruct IH as (r & ->); [intros; apply Hall; now right|].
  simpl. now eexists.
Qed.

End Loop.

(** ** Reads *)

Lemma get_total v k :
  v <> Undefined -> v <> Null -> exists x, get v k = Ok x.
Proof.
  intros Hu Hn. destruct v; simpl; try congruence; try (now eexists).
  - destruct (k =? "length"); [now eexists|].
    destruct (array_index k) as [i|]; [|now eexists].
    destruct (String.get i s); now eexists.
  - destruct (k =? "length"); [now eexists|].
    destruct (array_index k); now eexists.
  - destruct (lookup k props); now eexists.
Qed.

Lemma truthy_get_total v k : truthy v = true -> exists x, get v k = Ok x.
Proof.
  intros Ht. apply get_total; intros ->; discriminate.
Qed.

Lemma get_Obj ps k x : lookup k ps = Some x -> get (Obj ps) k = Ok x.
Proof. simpl. now intros ->. Qed.

Lemma get_Obj_missing ps k : lookup k ps = None -> get (Obj ps) k = Ok Undefined.
Proof. simpl. now intros ->. Qed.

(** ** Running a handler *)

Lemma result_try_catch {A} (m : Eff A) (h : Exn -> Eff A) up :
  result_of (try_catch m h up)
  = match result_of (m up) with
    | Ok a => Ok a
    | Throw e => result_of (h e up)
    end.
Proof.
  unfold try_catch, result_of. destruct (m up) as [l [a|e]]; simpl; auto.
  now destruct (h e up).
Qed.

Lemma result_bind {A B} (m : Eff A) (k : A -> Eff B) up :
  result_of (bind m k up)
  = match result_of (m up) with
    | Ok a => result_of (k a up)
    | Throw e => Throw e
    end.
Proof.
  unfold bind, result_of. destruct (m up) as [l [a|e]]; simpl; auto.
  now destruct (k a up).
Qed.

Lemma includes_mid (a s b : string) : includes (a ++ s ++ b) s.
Proof. now exists a, b. Qed.

Lemma string_app_assoc (a b c : string) : (a ++ b) ++ c = a ++ b ++ c.
Proof. induction a; simpl; congruence. Qed.

#[local] Arguments for_of : simpl never.
#[local] Arguments show_nat : simpl never.

(** ** The CoinGecko variant *)

Module CoinGeckoFacts.
Import CoinGecko CoinGeckoSpec.

Lemma cg_ids_nodup : NoDup (map (fun id : string => id) CRYPTO_IDS).
Proof.
  unfold CRYPTO_IDS; simpl.
  repeat (constructor; [simpl; intuition discriminate|]). constructor.
Qed.

Lemma cg_normalize_entry data id acc :
  normalize data id acc = (v <- entry data id ;; Ok (assign id v acc)).
Proof.
  unfold normalize, entry.
  destruct (get data id &&& path data [id; VS_CURRENCY]) as [c|e]; simpl; auto.
  destruct (truthy c); simpl; auto.
Qed.

Lemma cg_loop_collect data :
  for_of CRYPTO_IDS (normalize data) []
  = collect (fun id => id) (entry data) CRYPTO_IDS.
Proof.
  apply for_of_collect_nil; [apply cg_normalize_entry | apply cg_ids_nodup].
Qed.

Lemma cg_entry_total data id :
  data <> Undefined -> data <> Null -> exists v, entry data id = Ok v.
Proof.
  intros Hu Hn. unfold entry, and_, path.
  destruct (get_total data id Hu Hn) as (e & ->); simpl.
  destruct (truthy e) eqn:Te; simpl; [|rewrite Te; now eexists].
  destruct (truthy_get_total e VS_CURRENCY Te) as (p & ->); simpl.
  destruct (truthy p); now eexists.
Qed.

Lemma cg_entry_nullish data id :
  data = Undefined \/ data = Null ->
  entry data id = Throw (cannot_read data id).
Proof. now intros [->| ->]. Qed.

Lemma cg_entry_falsy data id e p :
  get data id = Ok e -> truthy e = true ->
  get e VS_CURRENCY = Ok p -> truthy p = false ->
  entry data id = Ok (Str "N/A").
Proof.
  intros He Te Hp Tp. unfold entry, and_, path.
  rewrite He; simpl. rewrite Te, Hp; simpl. now rewrite Tp.
Qed.

Lemma cg_entry_truthy data id e p :
  get data id = Ok e -> truthy e = true ->
  get e VS_CURRENCY = Ok p -> truthy p = true ->
  entry data id = Ok p.
Proof.
  intros He Te Hp Tp. unfold entry, and_, path.
  rewrite He; simpl. rewrite Te, Hp; simpl. now rewrite Tp.
Qed.

Lemma cg_entry_omitted data id :
  omits data id = true -> entry data id = Ok (Str "N/A").
Proof.
  unfold omits. destruct data as [| | | | | |ps]; try discriminate.
  destruct (lookup id ps) eqn:L; [discriminate|]. intros _.
  unfold entry, and_, path. now rewrite (get_Obj_missing _ _ L).
Qed.

Lemma cg_price_entry_reads data id n :
  price_entry data id = Some n ->
  exists e, get data id = Ok e /\ truthy e = true
            /\ get e VS_CURRENCY = Ok (Num n).
Proof.
  unfold price_entry. destruct data as [| | | | | |ps]; try discriminate.
  destruct (lookup id ps) as [[| | | | | |e]|] eqn:L; try discriminate.
  destruct (lookup VS_CURRENCY e) as [[| | |m| | |]|] eqn:Lu; try discriminate.
  intros Hn; inversion Hn; subst. exists (Obj e). repeat split.
  - now apply get_Obj.
  - now apply get_Obj.
Qed.

(** The [try] block completes normally only through the loop. *)
Lemma cg_try_inv up v :
  result_of (fetchCryptoPrices_try up) = Ok v ->
  exists data props,
    for_of CRYPTO_IDS (normalize data) [] = Ok props /\ v = Obj props.
Proof.
  unfold fetchCryptoPrices_try, bind, fetch, lift, ret, throw, result_of.
  destruct (up _) as [r|e]; simpl; [|discriminate].
  destruct (ok r); simpl.
  - destruct (json r) as [data|e]; simpl; [|discriminate].
    destruct (for_of CRYPTO_IDS (normalize data) []) as [props|e] eqn:L;
      simpl; [|discriminate].
    intros [= <-]. now exists data, props.
  - destruct (text r); simpl; discriminate.
Qed.

Lemma cg_try_answers r data :
  ok r = true -> json r = Ok data ->
  result_of (fetchCryptoPrices_try (answers r))
  = (props <- for_of CRYPTO_IDS (normalize data) [] ;; Ok (Obj props)).
Proof.
  intros Hok Hj.
  unfold fetchCryptoPrices_try, bind, fetch, lift, ret, throw, result_of, answers.
  simpl. rewrite Hok, Hj; simpl.
  now destruct (for_of CRYPTO_IDS (normalize data) []).
Qed.

Lemma cg_try_failure r :
  ok r = false ->
  result_of (fetchCryptoPrices_try (answers r))
  = (errorText <- text r ;;
     Throw (Error ("CoinGecko API error: " ++ show_nat (status r)
                   ++ " " ++ statusText r ++ " - " ++ errorText))).
Proof.
  intros Hok.
  unfold fetchCryptoPrices_try, bind, fetch, lift, ret, throw, result_of, answers.
  simpl. rewrite Hok; simpl. now destruct (text r).
Qed.

(** The function always completes normally: with what the [try] block
    returned, or with the ErrorResult built from what it threw. *)
Lemma cg_fetch_result up :
  result_of (fetchCryptoPrices up)
  = Ok match result_of (fetchCryptoPrices_try up) with
       | Ok v => v
       | Throw e => ErrorResult (message e)
       end.
Proof.
  unfold fetchCryptoPrices. rewrite result_try_catch.
  now destruct (result_of (fetchCryptoPrices_try up)).
Qed.

Lemma cg_prices_result req up v e :
  result_of (fetchCryptoPrices up) = Ok v -> get v "error" = Ok e ->
  result_of (prices req up)
  = Ok (status_json (if truthy e then 500 else 200) v).
Proof.
  intros Hv He. unfold prices. rewrite result_bind, Hv, result_bind.
  unfold lift at 1. unfold result_of at 1. simpl. rewrite He.
  now destruct (truthy e).
Qed.

Lemma cg_no_error_key : ~ In "error" CRYPTO_IDS.
Proof. unfold CRYPTO_IDS; simpl; intuition discriminate. Qed.

(** What a normal completion of the [try] block looks like. *)
Lemma cg_try_price_map up v :
  result_of (fetchCryptoPrices_try up) = Ok v ->
  exists props, v = Obj props /\ keys props = CRYPTO_IDS.
Proof.
  intros Hv. destruct (cg_try_inv up v Hv) as (data & props & Hl & ->).
  exists props. split; [reflexivity|].
  rewrite cg_loop_collect in Hl. rewrite (collect_keys _ _ _ _ Hl).
  apply map_id.
Qed.

Lemma cg_price_map_reply req up props :
  result_of (fetchCryptoPrices up) = Ok (Obj props) ->
  keys props = CRYPTO_IDS ->
  carries_error (Obj props) = false
  /\ result_of (prices req up) = Ok (status_json 200 (Obj props)).
Proof.
  intros Hr Hk.
  assert (L : lookup "error" props = None).
  { apply lookup_not_in. rewrite Hk. apply cg_no_error_key. }
  split; [simpl; now rewrite L|].
  now rewrite (cg_prices_result req up _ Undefined Hr (get_Obj_missing _ _ L)).
Qed.

(** A 2xx answer whose body parses and whose entries can all be read
    yields the price map of those entries, served with status 200. *)
Lemma cg_answered_price_map r data :
  ok r = true -> json r = Ok data ->
  (forall id, In id CRYPTO_IDS -> exists v, entry data id = Ok v) ->
  exists props,
    result_of (fetchCryptoPrices (answers r)) = Ok (Obj props)
    /\ keys props = CRYPTO_IDS
    /\ (forall id, In id CRYPTO_IDS ->
        exists v, entry data id = Ok v /\ lookup id props = Some v)
    /\ (forall req,
        result_of (prices req (answers r)) = Ok (status_json 200 (Obj props))).
Proof.
  intros Hok Hj Hall.
  destruct (collect_total (fun id => id) (entry data) CRYPTO_IDS Hall)
    as (props & Hc).
  assert (Hr : result_of (fetchCryptoPrices (answers r)) = Ok (Obj props)).
  { rewrite cg_fetch_result, (cg_try_answers r data Hok Hj), cg_loop_collect, Hc.
    reflexivity. }
  assert (Hk : keys props = CRYPTO_IDS).
  { rewrite (collect_keys _ _ _ _ Hc). apply map_id. }
  exists props. repeat split; auto.
  - intros id Hin.
    exact (collect_lookup (fun id => id) _ _ _ id Hc cg_ids_nodup Hin).
  - intros req. now apply cg_price_map_reply.
Qed.

Lemma cg_error_reply req up details :
  result_of (fetchCryptoPrices up) = Ok (ErrorResult details) ->
  result_of (prices req up) = Ok (status_json 500 (ErrorResult details)).
Proof.
  intros Hr.
  now rewrite (cg_prices_result req up _
                 (Str "Failed to fetch cryptocurrency prices") Hr eq_refl).
Qed.

End CoinGeckoFacts.

(** ** The CoinMarketCap variant *)

Module CoinMarketCapFacts.
Import CoinMarketCap CoinMarketCapSpec.

Lemma cmc_symbols_nodup : NoDup (map toLowerCase CRYPTO_SYMBOLS).
Proof.
  unfold CRYPTO_SYMBOLS; simpl.
  repeat (constructor; [simpl; intuition discriminate|]). constructor.
Qed.

Lemma cmc_no_error_key : ~ In "error" (map toLowerCase CRYPTO_SYMBOLS).
Proof. unfold CRYPTO_SYMBOLS; simpl; intuition discriminate. Qed.

Section WithCoercions.
Context `{Coercions}.

Lemma cmc_normalize_entry data symbol acc :
  normalize data symbol acc
  = (v <- entry data symbol ;; Ok (assign (toLowerCase symbol) v acc)).
Proof.
  unfold normalize, entry.
  destruct (has_quote data symbol) as [c|e]; simpl; auto.
  destruct (truthy c); simpl; auto.
Qed.

Lemma cmc_loop_collect data :
  for_of CRYPTO_SYMBOLS (normalize data) []
  = collect toLowerCase (entry data) CRYPTO_SYMBOLS.
Proof.
  apply for_of_collect_nil; [apply cmc_normalize_entry | apply cmc_symbols_nodup].
Qed.

Lemma cmc_entry_priced data symbol n :
  price_entry data symbol = Some n -> entry data symbol = Ok (Num n).
Proof.
  unfold price_entry. destruct data as [| | | | | |ps]; try discriminate.
  destruct (lookup "data" ps) as [[| | | | | |m]|] eqn:Ld; try discriminate.
  destruct (lookup symbol m) as [[| | | | |els|]|] eqn:Ls; try discriminate.
  destruct els as [|[| | | | | |listing] rest]; try discriminate.
  destruct (lookup "quote" listing) as [[| | | | | |q]|] eqn:Lq;
    try discriminate.
  destruct (lookup CONVERT_CURRENCY q) as [[| | | | | |u]|] eqn:Lu;
    try discriminate.
  destruct (lookup "price" u) as [[| | |p| | |]|] eqn:Lp; try discriminate.
  intros Hn; inversion Hn; subst; clear Hn.
  unfold entry, has_quote, and_, path, gt_zero, ToNumber.
  repeat (simpl; rewrite ?Ld, ?Ls, ?Lq, ?Lu, ?Lp). reflexivity.
Qed.

Lemma cmc_entry_omitted data symbol :
  omits data symbol = true -> entry data symbol = Ok (Str "N/A").
Proof.
  unfold omits. destruct data as [| | | | | |ps]; try discriminate.
  destruct (lookup "data" ps) as [[| | | | | |m]|] eqn:Ld; try discriminate.
  destruct (lookup symbol m) eqn:Ls; [discriminate|]. intros _.
  unfold entry, has_quote, and_, path.
  repeat (simpl; rewrite ?Ld, ?Ls). reflexivity.
Qed.

Lemma cmc_check_status_passes data :
  no_provider_error data = true -> check_status data = Ok tt.
Proof.
  unfold no_provider_error. destruct data as [| | | | | |ps]; try discriminate.
  unfold check_status, and_, path.
  destruct (lookup "status" ps) as [[| | | | | |st]|] eqn:Ls; try discriminate;
    simpl; rewrite Ls; simpl; [|reflexivity].
  destruct (lookup "error_code" st) as [ec|] eqn:Le; [|discriminate].
  intros Hz. repeat (simpl; rewrite ?Ls, ?Le).
  apply negb_true_iff in Hz. now rewrite Hz.
Qed.

Lemma cmc_check_status_throws data ec :
  provider_error data ec -> exists e, check_status data = Throw e.
Proof.
  intros (ps & st & -> & Ls & Le & Hz).
  unfold check_status, and_, path. simpl in Hz.
  repeat (simpl; rewrite ?Ls, ?Le, ?Hz).
  destruct (lookup "error_message" st) as [em|]; simpl.
  - destruct (ToString em); simpl; now eexists.
  - now eexists.
Qed.

Lemma cmc_try_inv up v :
  result_of (fetchCryptoPrices_try up) = Ok v ->
  exists data props,
    for_of CRYPTO_SYMBOLS (normalize data) [] = Ok props /\ v = Obj props.
Proof.
  unfold fetchCryptoPrices_try, bind, fetch, lift, ret, throw, result_of.
  destruct (up _) as [r|e]; simpl; [|discriminate].
  destruct (ok r); simpl.
  - destruct (json r) as [data|e]; simpl; [|discriminate].
    destruct (check_status data) as [[]|e]; simpl; [|discriminate].
    destruct (for_of CRYPTO_SYMBOLS (normalize data) []) as [props|e] eqn:L;
      simpl; [|discriminate].
    intros Hv; inversion Hv; subst. now exists data, props.
  - destruct (text r); simpl; discriminate.
Qed.

Lemma cmc_try_answers r data :
  ok r = true -> json r = Ok data ->
  result_of (fetchCryptoPrices_try (answers r))
  = (_ <- check_status data ;;
     props <- for_of CRYPTO_SYMBOLS (normalize data) [] ;; Ok (Obj props)).
Proof.
  intros Hok Hj.
  unfold fetchCryptoPrices_try, bind, fetch, lift, ret, throw, result_of, answers.
  simpl. rewrite Hok, Hj; simpl.
  destruct (check_status data) as [[]|e]; simpl; [|reflexivity].
  now destruct (for_of CRYPTO_SYMBOLS (normalize data) []).
Qed.

Lemma cmc_try_failure r :
  ok r = false ->
  result_of (fetchCryptoPrices_try (answers r))
  = (errorText <- text r ;;
     Throw (Error ("CoinMarketCap API error: " ++ show_nat (status r)
                   ++ " " ++ statusText r ++ " - " ++ errorText))).
Proof.
  intros Hok.
  unfold fetchCryptoPrices_try, bind, fetch, lift, ret, throw, result_of, answers.
  simpl. rewrite Hok; simpl. now destruct (text r).
Qed.

Lemma cmc_fetch_result up :
  result_of (fetchCryptoPrices up)
  = Ok match result_of (fetchCryptoPrices_try up) with
       | Ok v => v
       | Throw e => ErrorResult (message e)
       end.
Proof.
  unfold fetchCryptoPrices. rewrite result_try_catch.
  now destruct (result_of (fetchCryptoPrices_try up)).
Qed.

Lemma cmc_prices_result req up v e :
  result_of (fetchCryptoPrices up) = Ok v -> get v "error" = Ok e ->
  result_of (prices req up)
  = Ok (status_json (if truthy e then 500 else 200) v).
Proof.
  intros Hv He. unfold prices. rewrite result_bind, Hv, result_bind.
  unfold lift at 1. unfold result_of at 1. simpl. rewrite He.
  now destruct (truthy e).
Qed.

Lemma cmc_try_price_map up v :
  result_of (fetchCryptoPrices_try up) = Ok v ->
  exists props, v = Obj props /\ keys props = map toLowerCase CRYPTO_SYMBOLS.
Proof.
  intros Hv. destruct (cmc_try_inv up v Hv) as (data & props & Hl & ->).
  exists props. split; [reflexivity|].
  rewrite cmc_loop_collect in Hl. exact (collect_keys _ _ _ _ Hl).
Qed.

Lemma cmc_price_map_reply req up props :
  result_of (fetchCryptoPrices up) = Ok (Obj props) ->
  keys props = map toLowerCase CRYPTO_SYMBOLS ->
  carries_error (Obj props) = false
  /\ result_of (prices req up) = Ok (status_json 200 (Obj props)).
Proof.
  intros Hr Hk.
  assert (L : lookup "error" props = None).
  { apply lookup_not_in. rewrite Hk. apply cmc_no_error_key. }
  split; [simpl; now rewrite L|].
  now rewrite (cmc_prices_result req up _ Undefined Hr (get_Obj_missing _ _ L)).
Qed.

(** A 2xx answer whose body parses, passes the status check and whose
    entries can all be read yields the price map of those entries, served
    with status 200. *)
Lemma cmc_answered_price_map r data :
  ok r = true -> json r = Ok data -> check_status data = Ok tt ->
  (forall s, In s CRYPTO_SYMBOLS -> exists v, entry data s = Ok v) ->
  exists props,
    result_of (fetchCryptoPrices (answers r)) = Ok (Obj props)
    /\ keys props = map toLowerCase CRYPTO_SYMBOLS
    /\ (forall s, In s CRYPTO_SYMBOLS ->
        exists v, entry data s = Ok v
                  /\ lookup (toLowerCase s) props = Some v)
    /\ (forall req,
        result_of (prices req (answers r)) = Ok (status_json 200 (Obj props))).
Proof.
  intros Hok Hj Hs Hall.
  destruct (collect_total toLowerCase (entry data) CRYPTO_SYMBOLS Hall)
    as (props & Hc).
  assert (Hr : result_of (fetchCryptoPrices (answers r)) = Ok (Obj props)).
  { rewrite cmc_fetch_result, (cmc_try_answers r data Hok Hj), Hs. simpl.
    rewrite cmc_loop_collect, Hc. reflexivity. }
  assert (Hk : keys props = map toLowerCase CRYPTO_SYMBOLS).
  { exact (collect_keys _ _ _ _ Hc). }
  exists props. repeat split; auto.
  - intros s Hin.
    exact (collect_lookup toLowerCase _ _ _ s Hc cmc_symbols_nodup Hin).
  - intros req. now apply cmc_price_map_reply.
Qed.

Lemma cmc_error_reply req up details :
  result_of (fetchCryptoPrices up) = Ok (ErrorResult details) ->
  result_of (prices req up) = Ok (status_json 500 (ErrorResult details)).
Proof.
  intros Hr.
  now rewrite (cmc_prices_result req up _
                 (Str "Failed to fetch cryptocurrency prices") Hr eq_refl).
Qed.

End WithCoercions.

End CoinMarketCapFacts.

Lemma includes_tail (a s : string) : includes (a ++ s) s.
Proof.
  exists a, "". f_equal. clear a. induction s; simpl; congruence.
Qed.

(** ** Properties of the relay *)

(** C8. For every request and whatever the upstream would do, [GET /]
    answers status 200 with the fixed welcome text and records no effect:
    no outbound call, nothing logged.  This holds in both variants. *)
Theorem root_is_fixed_and_silent (req : Incoming) (up : Upstream) :
  CoinGecko.root req up
  = ([], Ok {| code := 200;
               body := Text "Welcome to the Crypto Price API! Access /prices to get the latest data." |})
  /\ CoinMarketCap.root req up
     = ([], Ok {| code := 200;
                  body := Text "Welcome to the Crypto Price API! Access /prices to get the latest data from CoinMarketCap." |}).
Proof. split; reflexivity. Qed.

(** C2. Whenever [fetchCryptoPrices] returns something other than an
    ErrorResult, it is an object with exactly one entry per configured
    identifier, whatever the upstream did: the keys are the configured
    identifiers (lower-cased in the CoinMarketCap variant), each once. *)
Theorem price_map_has_exactly_the_configured_keys `{Coercions} (up : Upstream) :
  (forall v,
      result_of (CoinGecko.fetchCryptoPrices up) = Ok v ->
      (forall details, v <> CoinGecko.ErrorResult details) ->
      exists props,
        v = Obj props /\ keys props = CoinGecko.CRYPTO_IDS
        /\ NoDup (keys props))
  /\ (forall v,
      result_of (CoinMarketCap.fetchCryptoPrices up) = Ok v ->
      (forall details, v <> CoinMarketCap.ErrorResult details) ->
      exists props,
        v = Obj props
        /\ keys props = map toLowerCase CoinMarketCap.CRYPTO_SYMBOLS
        /\ NoDup (keys props)).
Proof.
  split; intros v Hv Hne.
  - rewrite CoinGeckoFacts.cg_fetch_result in Hv.
    destruct (result_of (CoinGecko.fetchCryptoPrices_try up)) as [w|e] eqn:Ht.
    + inversion Hv; subst w.
      destruct (CoinGeckoFacts.cg_try_price_map up v Ht) as (props & -> & Hk).
      exists props. repeat split; auto.
      rewrite Hk, <- (map_id CoinGecko.CRYPTO_IDS).
      apply CoinGeckoFacts.cg_ids_nodup.
    + inversion Hv as [Hv']. exfalso. now apply (Hne (message e)).
  - rewrite CoinMarketCapFacts.cmc_fetch_result in Hv.
    destruct (result_of (CoinMarketCap.fetchCryptoPrices_try up)) as [w|e] eqn:Ht.
    + inversion Hv; subst w.
      destruct (CoinMarketCapFacts.cmc_try_price_map up v Ht) as (props & -> & Hk).
      exists props. repeat split; auto.
      rewrite Hk. apply CoinMarketCapFacts.cmc_symbols_nodup.
    + inversion Hv as [Hv']. exfalso. now apply (Hne (message e)).
Qed.

Lemma price_map_has_exactly_the_configured_keys_witness :
  (exists props,
      CoinGeckoSpec.payload_prices = Obj props
      /\ keys props = CoinGecko.CRYPTO_IDS /\ NoDup (keys props))
  /\ (exists props,
      CoinMarketCapSpec.payload_prices = Obj props
      /\ keys props = map toLowerCase CoinMarketCap.CRYPTO_SYMBOLS
      /\ NoDup (keys props)).
Proof.
  split.
  - apply (proj1 (@price_map_has_exactly_the_configured_keys
                    integer_coercions
                    (answers (success CoinGeckoSpec.payload_full)))).
    + reflexivity.
    + intros details; discriminate.
  - apply (proj2 (@price_map_has_exactly_the_configured_keys
                    integer_coercions
                    (answers (success CoinMarketCapSpec.payload_full)))).
    + reflexivity.
    + intros details; discriminate.
Defined.

(** C3. [fetchCryptoPrices] never lets an exception escape: whatever the
    upstream does (rejects, answers anything), the function completes
    normally.  Its value is either what the [try] block returned, an object
    keyed by the configured identifiers, or, when the [try] block threw, an
    object with the fields [error] and [details] whose [details] is the
    message of what was thrown. *)
Theorem fetch_never_throws `{Coercions} (up : Upstream) :
  (exists v,
      result_of (CoinGecko.fetchCryptoPrices up) = Ok v
      /\ ((exists props,
              result_of (CoinGecko.fetchCryptoPrices_try up) = Ok v
              /\ v = Obj props /\ keys props = CoinGecko.CRYPTO_IDS)
          \/ (exists cause,
                 result_of (CoinGecko.fetchCryptoPrices_try up) = Throw cause
                 /\ v = Obj [ ("error", Str "Failed to fetch cryptocurrency prices");
                              ("details", Str (message cause)) ])))
  /\ (exists v,
      result_of (CoinMarketCap.fetchCryptoPrices up) = Ok v
      /\ ((exists props,
              result_of (CoinMarketCap.fetchCryptoPrices_try up) = Ok v
              /\ v = Obj props
              /\ keys props = map toLowerCase CoinMarketCap.CRYPTO_SYMBOLS)
          \/ (exists cause,
                 result_of (CoinMarketCap.fetchCryptoPrices_try up) = Throw cause
                 /\ v = Obj [ ("error", Str "Failed to fetch cryptocurrency prices");
                              ("details", Str (message cause)) ]))).
Proof.
  split.
  - rewrite CoinGeckoFacts.cg_fetch_result.
    destruct (result_of (CoinGecko.fetchCryptoPrices_try up)) as [w|e] eqn:Ht.
    + exists w. split; [reflexivity|]. left.
      destruct (CoinGeckoFacts.cg_try_price_map up w Ht) as (props & -> & Hk).
      now exists props.
    + eexists. split; [reflexivity|]. right. now exists e.
  - rewrite CoinMarketCapFacts.cmc_fetch_result.
    destruct (result_of (CoinMarketCap.fetchCryptoPrices_try up)) as [w|e] eqn:Ht.
    + exists w. split; [reflexivity|]. left.
      destruct (CoinMarketCapFacts.cmc_try_price_map up w Ht) as (props & -> & Hk).
      now exists props.
    + eexists. split; [reflexivity|]. right. now exists e.
Qed.

(** C4. For every result of [fetchCryptoPrices], [GET /prices] answers
    status 500 when the result carries an [error] field and status 200
    when it does not, in both cases with the result as JSON body. *)
Theorem prices_status_follows_error_field `{Coercions}
    (req : Incoming) (up : Upstream) :
  (exists v,
      result_of (CoinGecko.fetchCryptoPrices up) = Ok v
      /\ result_of (CoinGecko.prices req up)
         = Ok (status_json (if carries_error v then 500 else 200) v))
  /\ (exists v,
      result_of (CoinMarketCap.fetchCryptoPrices up) = Ok v
      /\ result_of (CoinMarketCap.prices req up)
         = Ok (status_json (if carries_error v then 500 else 200) v)).
Proof.
  split.
  - destruct (result_of (CoinGecko.fetchCryptoPrices_try up)) as [w|e] eqn:Ht.
    + destruct (CoinGeckoFacts.cg_try_price_map up w Ht) as (props & -> & Hk).
      assert (Hr : result_of (CoinGecko.fetchCryptoPrices up) = Ok (Obj props))
        by now rewrite CoinGeckoFacts.cg_fetch_result, Ht.
      destruct (CoinGeckoFacts.cg_price_map_reply req up props Hr Hk) as (Hc & Hp).
      exists (Obj props). now rewrite Hc.
    + assert (Hr : result_of (CoinGecko.fetchCryptoPrices up)
                   = Ok (CoinGecko.ErrorResult (message e)))
        by now rewrite CoinGeckoFacts.cg_fetch_result, Ht.
      eexists. split; [exact Hr|].
      now rewrite (CoinGeckoFacts.cg_error_reply req up _ Hr).
  - destruct (result_of (CoinMarketCap.fetchCryptoPrices_try up)) as [w|e] eqn:Ht.
    + destruct (CoinMarketCapFacts.cmc_try_price_map up w Ht) as (props & -> & Hk).
      assert (Hr : result_of (CoinMarketCap.fetchCryptoPrices up) = Ok (Obj props))
        by now rewrite CoinMarketCapFacts.cmc_fetch_result, Ht.
      destruct (CoinMarketCapFacts.cmc_price_map_reply req up props Hr Hk)
        as (Hc & Hp).
      exists (Obj props). now rewrite Hc.
    + assert (Hr : result_of (CoinMarketCap.fetchCryptoPrices up)
                   = Ok (CoinMarketCap.ErrorResult (message e)))
        by now rewrite CoinMarketCapFacts.cmc_fetch_result, Ht.
      eexists. split; [exact Hr|].
      now rewrite (CoinMarketCapFacts.cmc_error_reply req up _ Hr).
Qed.

(** C10. No configured identifier lower-cases to [error], in either
    variant; so a price map that the [try] block returns never carries an
    [error] field, and [GET /prices] serves it with status 200. *)
Theorem price_map_never_carries_error `{Coercions}
    (req : Incoming) (up : Upstream) :
  ~ In "error" (map toLowerCase CoinGecko.CRYPTO_IDS)
  /\ ~ In "error" (map toLowerCase CoinMarketCap.CRYPTO_SYMBOLS)
  /\ (forall v,
      result_of (CoinGecko.fetchCryptoPrices_try up) = Ok v ->
      result_of (CoinGecko.fetchCryptoPrices up) = Ok v
      /\ carries_error v = false
      /\ result_of (CoinGecko.prices req up) = Ok (status_json 200 v))
  /\ (forall v,
      result_of (CoinMarketCap.fetchCryptoPrices_try up) = Ok v ->
      result_of (CoinMarketCap.fetchCryptoPrices up) = Ok v
      /\ carries_error v = false
      /\ result_of (CoinMarketCap.prices req up) = Ok (status_json 200 v)).
Proof.
  split; [exact CoinGeckoFacts.cg_no_error_key|].
  split; [exact CoinMarketCapFacts.cmc_no_error_key|].
  split; intros v Ht.
  - destruct (CoinGeckoFacts.cg_try_price_map up v Ht) as (props & -> & Hk).
    assert (Hr : result_of (CoinGecko.fetchCryptoPrices up) = Ok (Obj props))
      by now rewrite CoinGeckoFacts.cg_fetch_result, Ht.
    split; [exact Hr|]. now apply CoinGeckoFacts.cg_price_map_reply.
  - destruct (CoinMarketCapFacts.cmc_try_price_map up v Ht) as (props & -> & Hk).
    assert (Hr : result_of (CoinMarketCap.fetchCryptoPrices up) = Ok (Obj props))
      by now rewrite CoinMarketCapFacts.cmc_fetch_result, Ht.
    split; [exact Hr|]. now apply CoinMarketCapFacts.cmc_price_map_reply.
Qed.

Lemma price_map_never_carries_error_witness :
  (result_of (CoinGecko.fetchCryptoPrices
                (answers (success CoinGeckoSpec.payload_full)))
   = Ok CoinGeckoSpec.payload_prices
   /\ carries_error CoinGeckoSpec.payload_prices = false
   /\ result_of (CoinGecko.prices any_request
                   (answers (success CoinGeckoSpec.payload_full)))
      = Ok (status_json 200 CoinGeckoSpec.payload_prices))
  /\ (result_of (@CoinMarketCap.fetchCryptoPrices integer_coercions
                   (answers (success CoinMarketCapSpec.payload_full)))
      = Ok CoinMarketCapSpec.payload_prices
      /\ carries_error CoinMarketCapSpec.payload_prices = false
      /\ result_of (@CoinMarketCap.prices integer_coercions any_request
                      (answers (success CoinMarketCapSpec.payload_full)))
         = Ok (status_json 200 CoinMarketCapSpec.payload_prices)).
Proof.
  split.
  - apply (proj1 (proj2 (proj2 (@price_map_never_carries_error
             integer_coercions any_request
             (answers (success CoinGeckoSpec.payload_full)))))).
    reflexivity.
  - apply (proj2 (proj2 (proj2 (@price_map_never_carries_error
             integer_coercions any_request
             (answers (success CoinMarketCapSpec.payload_full)))))).
    reflexivity.
Defined.

Lemma coingecko_entry_priced data id n :
  CoinGeckoSpec.price_entry data id = Some n -> number_truthy n = true ->
  CoinGeckoSpec.entry data id = Ok (Num n).
Proof.
  intros Hp Hn.
  destruct (CoinGeckoFacts.cg_price_entry_reads data id n Hp) as (e & He & Te & Hu).
  exact (CoinGeckoFacts.cg_entry_truthy data id e (Num n) He Te Hu Hn).
Qed.

(** X17. What both variants do serve.  When a 2xx answer parses to a payload
    with a price entry for every configured identifier, [fetchCryptoPrices]
    returns, and [GET /prices] serves with status 200, an object whose keys
    are the configured identifiers lower-cased, each mapped to the number
    found in the payload.  In the CoinGecko variant every price must be
    non-zero; in the CoinMarketCap variant the payload must carry no
    provider-level error. *)
Theorem full_payload_gives_every_price `{Coercions}
    (req : Incoming) (r : Response) (data : Value) :
  ok r = true -> json r = Ok data ->
  ((forall id, In id CoinGecko.CRYPTO_IDS ->
       exists n, CoinGeckoSpec.price_entry data id = Some n
                 /\ number_truthy n = true) ->
   exists props,
     result_of (CoinGecko.fetchCryptoPrices (answers r)) = Ok (Obj props)
     /\ keys props = map toLowerCase CoinGecko.CRYPTO_IDS
     /\ (forall id n, In id CoinGecko.CRYPTO_IDS ->
           CoinGeckoSpec.price_entry data id = Some n ->
           lookup (toLowerCase id) props = Some (Num n))
     /\ result_of (CoinGecko.prices req (answers r))
        = Ok (status_json 200 (Obj props)))
  /\ (no_provider_error data = true ->
      (forall s, In s CoinMarketCap.CRYPTO_SYMBOLS ->
          exists n, CoinMarketCapSpec.price_entry data s = Some n) ->
      exists props,
        result_of (CoinMarketCap.fetchCryptoPrices (answers r)) = Ok (Obj props)
        /\ keys props = map toLowerCase CoinMarketCap.CRYPTO_SYMBOLS
        /\ (forall s n, In s CoinMarketCap.CRYPTO_SYMBOLS ->
              CoinMarketCapSpec.price_entry data s = Some n ->
              lookup (toLowerCase s) props = Some (Num n))
        /\ result_of (CoinMarketCap.prices req (answers r))
           = Ok (status_json 200 (Obj props))).
Proof.
  intros Hok Hj. split.
  - intros Hall.
    assert (Hent : forall id, In id CoinGecko.CRYPTO_IDS ->
                     exists v, CoinGeckoSpec.entry data id = Ok v).
    { intros id Hin. destruct (Hall id Hin) as (n & Hp & Hn).
      exists (Num n). now apply coingecko_entry_priced. }
    destruct (CoinGeckoFacts.cg_answered_price_map r data Hok Hj Hent)
      as (props & Hr & Hk & Hl & Hp).
    exists props. repeat split; auto.
    intros id n Hin Hpe.
    destruct (Hl id Hin) as (v & Hv & Hlk).
    destruct (Hall id Hin) as (n' & Hp' & Hn').
    rewrite Hpe in Hp'. inversion Hp'; subst n'.
    rewrite (coingecko_entry_priced data id n Hpe Hn') in Hv.
    inversion Hv; subst v.
    replace (toLowerCase id) with id; [assumption|].
    unfold CoinGecko.CRYPTO_IDS in Hin. simpl in Hin.
    repeat (destruct Hin as [<-|Hin]; [reflexivity|]). contradiction.
  - intros Hs Hall.
    assert (Hent : forall s, In s CoinMarketCap.CRYPTO_SYMBOLS ->
                     exists v, CoinMarketCapSpec.entry data s = Ok v).
    { intros s Hin. destruct (Hall s Hin) as (n & Hp).
      exists (Num n). now apply CoinMarketCapFacts.cmc_entry_priced. }
    destruct (CoinMarketCapFacts.cmc_answered_price_map r data Hok Hj
                (CoinMarketCapFacts.cmc_check_status_passes data Hs) Hent)
      as (props & Hr & Hk & Hl & Hp).
    exists props. repeat split; auto.
    intros s n Hin Hpe.
    destruct (Hl s Hin) as (v & Hv & Hlk).
    rewrite (CoinMarketCapFacts.cmc_entry_priced data s n Hpe) in Hv.
    now inversion Hv; subst v.
Qed.

Lemma full_payload_gives_every_price_witness :
  (exists props,
      result_of (CoinGecko.fetchCryptoPrices
                   (answers (success CoinGeckoSpec.payload_full)))
      = Ok (Obj props)
      /\ keys props = map toLowerCase CoinGecko.CRYPTO_IDS
      /\ (forall id n, In id CoinGecko.CRYPTO_IDS ->
            CoinGeckoSpec.price_entry CoinGeckoSpec.payload_full id = Some n ->
            lookup (toLowerCase id) props = Some (Num n))
      /\ result_of (CoinGecko.prices any_request
                      (answers (success CoinGeckoSpec.payload_full)))
         = Ok (status_json 200 (Obj props)))
  /\ (exists props,
      result_of (@CoinMarketCap.fetchCryptoPrices integer_coercions
                   (answers (success CoinMarketCapSpec.payload_full)))
      = Ok (Obj props)
      /\ keys props = map toLowerCase CoinMarketCap.CRYPTO_SYMBOLS
      /\ (forall s n, In s CoinMarketCap.CRYPTO_SYMBOLS ->
            CoinMarketCapSpec.price_entry CoinMarketCapSpec.payload_full s
            = Some n ->
            lookup (toLowerCase s) props = Some (Num n))
      /\ result_of (@CoinMarketCap.prices integer_coercions any_request
                      (answers (success CoinMarketCapSpec.payload_full)))
         = Ok (status_json 200 (Obj props))).
Proof.
  split.
  - apply (proj1 (@full_payload_gives_every_price integer_coercions
                    any_request (success CoinGeckoSpec.payload_full)
                    CoinGeckoSpec.payload_full eq_refl eq_refl)).
    intros id Hin. simpl in Hin.
    repeat (destruct Hin as [<-|Hin];
            [eexists; split; reflexivity|]).
    contradiction.
  - apply (proj2 (@full_payload_gives_every_price integer_coercions
                    any_request (success CoinMarketCapSpec.payload_full)
                    CoinMarketCapSpec.payload_full eq_refl eq_refl)).
    + reflexivity.
    + intros s Hin. simpl in Hin.
      repeat (destruct Hin as [<-|Hin]; [eexists; reflexivity|]).
      contradiction.
Defined.

(** C1.  The CoinGecko variant breaks it: the payload below has a price
    entry for every configured identifier, [tether] at zero, and the
    result does not map every identifier to the number in the payload
    ([tether] is mapped to the string N/A, which the code reserves for a
    price that was not found). *)
Lemma zero_price_is_not_served :
  (forall id, In id CoinGecko.CRYPTO_IDS ->
      exists n, CoinGeckoSpec.price_entry CoinGeckoSpec.payload_zero_tether id
                = Some n)
  /\ result_of (CoinGecko.fetchCryptoPrices
                  (answers (success CoinGeckoSpec.payload_zero_tether)))
     = Ok (Obj [ ("bitcoin", num 30000); ("ethereum", num 2000);
                 ("litecoin", num 90); ("shiba-inu", num 1);
                 ("dogecoin", num 2); ("tron", num 3); ("ripple", num 4);
                 ("the-open-network", num 5); ("tether", Str "N/A") ])
  /\ ~ (exists props,
          result_of (CoinGecko.fetchCryptoPrices
                       (answers (success CoinGeckoSpec.payload_zero_tether)))
          = Ok (Obj props)
          /\ forall id n, In id CoinGecko.CRYPTO_IDS ->
               CoinGeckoSpec.price_entry CoinGeckoSpec.payload_zero_tether id
               = Some n ->
               lookup (toLowerCase id) props = Some (Num n)).
Proof.
  split; [|split].
  - intros id Hin. simpl in Hin.
    repeat (destruct Hin as [<-|Hin]; [eexists; reflexivity|]).
    contradiction.
  - reflexivity.
  - intros (props & Hr & Hall).
    vm_compute in Hr. inversion Hr; subst props; clear Hr.
    specialize (Hall "tether" (Finite 0)).
    assert (Hin : In "tether" CoinGecko.CRYPTO_IDS)
      by (unfold CoinGecko.CRYPTO_IDS; simpl; tauto).
    specialize (Hall Hin eq_refl). vm_compute in Hall. discriminate.
Qed.

(** C5, as the code has it.  When the upstream answers with a status
    outside 200-299, [GET /prices] answers status 500 with an ErrorResult
    whose [error] is the fixed message.  When the body of the answer can be
    read as text, [details] is the provider prefix followed by the status
    code, the status text and the body text, so it contains the status
    code (503 for a 503) and the body text; when reading the body fails,
    [details] is the message of that failure instead. *)
Theorem upstream_failure_is_reported `{Coercions}
    (req : Incoming) (r : Response) :
  ok r = false ->
  (exists details,
      result_of (CoinGecko.prices req (answers r))
      = Ok (status_json 500
              (Obj [ ("error", Str "Failed to fetch cryptocurrency prices");
                     ("details", Str details) ]))
      /\ (forall errorText, text r = Ok errorText ->
           details = "CoinGecko API error: " ++ show_nat (status r) ++ " "
                     ++ statusText r ++ " - " ++ errorText
           /\ includes details (show_nat (status r))
           /\ includes details errorText)
      /\ (forall cause, text r = Throw cause -> details = message cause))
  /\ (exists details,
      result_of (CoinMarketCap.prices req (answers r))
      = Ok (status_json 500
              (Obj [ ("error", Str "Failed to fetch cryptocurrency prices");
                     ("details", Str details) ]))
      /\ (forall errorText, text r = Ok errorText ->
           details = "CoinMarketCap API error: " ++ show_nat (status r) ++ " "
                     ++ statusText r ++ " - " ++ errorText
           /\ includes details (show_nat (status r))
           /\ includes details errorText)
      /\ (forall cause, text r = Throw cause -> details = message cause)).
Proof.
  intros Hok. split.
  - pose proof (CoinGeckoFacts.cg_fetch_result (answers r)) as Hr.
    rewrite (CoinGeckoFacts.cg_try_failure r Hok) in Hr.
    destruct (text r) as [t|e]; cbv beta iota delta [rbind message] in Hr.
    + eexists. split; [exact (CoinGeckoFacts.cg_error_reply req _ _ Hr)|].
      split; [|intros cause Ht; discriminate].
      intros errorText Ht; inversion Ht; subst t. split; [reflexivity|]. split.
      * apply includes_mid.
      * rewrite <- !string_app_assoc. apply includes_tail.
    + eexists. split; [exact (CoinGeckoFacts.cg_error_reply req _ _ Hr)|].
      split; [intros errorText Ht; discriminate|].
      intros cause Ht; now inversion Ht.
  - pose proof (CoinMarketCapFacts.cmc_fetch_result (answers r)) as Hr.
    rewrite (CoinMarketCapFacts.cmc_try_failure r Hok) in Hr.
    destruct (text r) as [t|e]; cbv beta iota delta [rbind message] in Hr.
    + eexists. split; [exact (CoinMarketCapFacts.cmc_error_reply req _ _ Hr)|].
      split; [|intros cause Ht; discriminate].
      intros errorText Ht; inversion Ht; subst t. split; [reflexivity|]. split.
      * apply includes_mid.
      * rewrite <- !string_app_assoc. apply includes_tail.
    + eexists. split; [exact (CoinMarketCapFacts.cmc_error_reply req _ _ Hr)|].
      split; [intros errorText Ht; discriminate|].
      intros cause Ht; now inversion Ht.
Qed.

Lemma upstream_failure_is_reported_witness :
  ok (failure 503 "Service Unavailable" "upstream down") = false
  /\ exists details,
      result_of (CoinGecko.prices any_request
                   (answers (failure 503 "Service Unavailable" "upstream down")))
      = Ok (status_json 500
              (Obj [ ("error", Str "Failed to fetch cryptocurrency prices");
                     ("details", Str details) ]))
      /\ (forall errorText,
           text (failure 503 "Service Unavailable" "upstream down")
           = Ok errorText ->
           details = "CoinGecko API error: " ++ show_nat 503 ++ " "
                     ++ "Service Unavailable" ++ " - " ++ errorText
           /\ includes details (show_nat 503)
           /\ includes details errorText)
      /\ (forall cause,
           text (failure 503 "Service Unavailable" "upstream down")
           = Throw cause ->
           details = message cause).
Proof.
  split; [reflexivity|].
  apply (proj1 (@upstream_failure_is_reported integer_coercions any_request
                  (failure 503 "Service Unavailable" "upstream down")
                  eq_refl)).
Defined.

(** C5 as stated fails when the body of the failing answer cannot be read:
    the upstream below answers 503, reading its body fails, and the
    [details] served with status 500 is the message of the read failure,
    which does not contain the status code. *)
Lemma unread_body_hides_status_code :
  ok (unreadable 503 "Service Unavailable" "Premature close") = false
  /\ result_of (CoinGecko.prices any_request
                  (answers (unreadable 503 "Service Unavailable"
                              "Premature close")))
     = Ok (status_json 500
             (Obj [ ("error", Str "Failed to fetch cryptocurrency prices");
                    ("details", Str "Premature close") ]))
  /\ ~ includes "Premature close" "503".
Proof.
  split; [reflexivity|]. split; [reflexivity|].
  intros (pre & post & Hs).
  repeat (destruct pre as [|? pre];
          [simpl in Hs; discriminate
          |simpl in Hs; injection Hs as _ Hs]).
  destruct pre; simpl in Hs; discriminate.
Qed.

(** C9. In the CoinGecko variant, when a configured identifier is present
    in the payload (its entry is truthy) and the value under [usd] is
    falsy, zero included, the identifier is mapped to the string N/A. *)
Theorem falsy_price_becomes_NA (r : Response) (data : Value) (id : string)
    (e p : Value) :
  ok r = true -> json r = Ok data ->
  In id CoinGecko.CRYPTO_IDS ->
  get data id = Ok e -> truthy e = true ->
  get e CoinGecko.VS_CURRENCY = Ok p -> truthy p = false ->
  exists props,
    result_of (CoinGecko.fetchCryptoPrices (answers r)) = Ok (Obj props)
    /\ lookup id props = Some (Str "N/A").
Proof.
  intros Hok Hj Hin He Te Hp Tp.
  assert (Hent : forall i, In i CoinGecko.CRYPTO_IDS ->
                   exists v, CoinGeckoSpec.entry data i = Ok v).
  { intros i _. apply CoinGeckoFacts.cg_entry_total; intros ->; discriminate. }
  destruct (CoinGeckoFacts.cg_answered_price_map r data Hok Hj Hent)
    as (props & Hr & _ & Hl & _).
  exists props. split; [assumption|].
  destruct (Hl id Hin) as (v & Hv & Hlk).
  rewrite (CoinGeckoFacts.cg_entry_falsy data id e p He Te Hp Tp) in Hv.
  now inversion Hv; subst v.
Qed.

Lemma falsy_price_becomes_NA_witness :
  truthy (num 0) = false
  /\ exists props,
      result_of (CoinGecko.fetchCryptoPrices
                   (answers (success CoinGeckoSpec.payload_zero_tether)))
      = Ok (Obj props)
      /\ lookup "tether" props = Some (Str "N/A").
Proof.
  split; [reflexivity|].
  apply (falsy_price_becomes_NA (success CoinGeckoSpec.payload_zero_tether)
           CoinGeckoSpec.payload_zero_tether "tether"
           (Obj [("usd", num 0)]) (num 0)); try reflexivity.
  unfold CoinGecko.CRYPTO_IDS; simpl; tauto.
Defined.

(** C7, as the code has it.  In the CoinMarketCap variant, when a 2xx
    answer parses to a body carrying a provider-level error status with a
    non-zero error code, [fetchCryptoPrices] returns an ErrorResult and
    [GET /prices] answers status 500. *)
Theorem provider_error_is_a_failure `{Coercions}
    (req : Incoming) (r : Response) (data : Value) (ec : number) :
  ok r = true -> json r = Ok data -> provider_error data ec ->
  exists details,
    result_of (CoinMarketCap.fetchCryptoPrices (answers r))
    = Ok (CoinMarketCap.ErrorResult details)
    /\ result_of (CoinMarketCap.prices req (answers r))
       = Ok (status_json 500 (CoinMarketCap.ErrorResult details)).
Proof.
  intros Hok Hj Hpe.
  destruct (CoinMarketCapFacts.cmc_check_status_throws data ec Hpe) as (e & He).
  assert (Hr : result_of (CoinMarketCap.fetchCryptoPrices (answers r))
               = Ok (CoinMarketCap.ErrorResult (message e))).
  { rewrite CoinMarketCapFacts.cmc_fetch_result,
      (CoinMarketCapFacts.cmc_try_answers r data Hok Hj), He. reflexivity. }
  exists (message e). split; [assumption|].
  now apply CoinMarketCapFacts.cmc_error_reply.
Qed.

Lemma provider_error_is_a_failure_witness :
  provider_error CoinMarketCapSpec.payload_bad_key (Finite 1001)
  /\ exists details,
      result_of (@CoinMarketCap.fetchCryptoPrices integer_coercions
                   (answers (success CoinMarketCapSpec.payload_bad_key)))
      = Ok (CoinMarketCap.ErrorResult details)
      /\ result_of (@CoinMarketCap.prices integer_coercions any_request
                      (answers (success CoinMarketCapSpec.payload_bad_key)))
         = Ok (status_json 500 (CoinMarketCap.ErrorResult details)).
Proof.
  assert (Hpe : provider_error CoinMarketCapSpec.payload_bad_key (Finite 1001)).
  { unfold provider_error, CoinMarketCapSpec.payload_bad_key.
    do 2 eexists. repeat split; reflexivity. }
  split; [exact Hpe|].
  exact (@provider_error_is_a_failure integer_coercions any_request
           (success CoinMarketCapSpec.payload_bad_key)
           CoinMarketCapSpec.payload_bad_key (Finite 1001)
           eq_refl eq_refl Hpe).
Defined.

(** C7 as stated fails in the CoinGecko variant, which never looks at an
    embedded status: the 2xx body below carries error code 429, and the
    function returns a price map (every identifier N/A), served with status
    200. *)
Lemma coingecko_ignores_provider_error :
  provider_error CoinGeckoSpec.payload_rate_limited (Finite 429)
  /\ result_of (CoinGecko.fetchCryptoPrices
                  (answers (success CoinGeckoSpec.payload_rate_limited)))
     = Ok CoinGeckoSpec.all_NA
  /\ (forall details,
         CoinGeckoSpec.all_NA <> CoinGecko.ErrorResult details)
  /\ result_of (CoinGecko.prices any_request
                  (answers (success CoinGeckoSpec.payload_rate_limited)))
     = Ok (status_json 200 CoinGeckoSpec.all_NA).
Proof.
  split; [|split; [|split]].
  - unfold provider_error, CoinGeckoSpec.payload_rate_limited.
    do 2 eexists. repeat split; reflexivity.
  - reflexivity.
  - intros details; discriminate.
  - reflexivity.
Qed.

Example show_503 : show_nat 503 = "503".
Proof. reflexivity. Qed.

Lemma coingecko_ids_lower id :
  In id CoinGecko.CRYPTO_IDS -> toLowerCase id = id.
Proof.
  unfold CoinGecko.CRYPTO_IDS; simpl; intros Hin.
  repeat (destruct Hin as [<-|Hin]; [reflexivity|]). contradiction.
Qed.

(** X18. What both variants do serve beside an omission.  When a 2xx
    answer parses to a payload that
    omits one configured identifier and has a price entry for every other
    one, the request does not fail: the omitted identifier is mapped to
    the string N/A and every other one to the number found in the
    payload.  In the CoinGecko variant the other prices must be non-zero;
    in the CoinMarketCap variant the payload must carry no provider-level
    error. *)
Theorem omitted_identifier_becomes_NA `{Coercions}
    (req : Incoming) (r : Response) (data : Value) (absent : string) :
  ok r = true -> json r = Ok data ->
  (In absent CoinGecko.CRYPTO_IDS ->
   CoinGeckoSpec.omits data absent = true ->
   (forall id, In id CoinGecko.CRYPTO_IDS -> id <> absent ->
       exists n, CoinGeckoSpec.price_entry data id = Some n
                 /\ number_truthy n = true) ->
   exists props,
     result_of (CoinGecko.fetchCryptoPrices (answers r)) = Ok (Obj props)
     /\ keys props = map toLowerCase CoinGecko.CRYPTO_IDS
     /\ lookup (toLowerCase absent) props = Some (Str "N/A")
     /\ (forall id n, In id CoinGecko.CRYPTO_IDS -> id <> absent ->
           CoinGeckoSpec.price_entry data id = Some n ->
           lookup (toLowerCase id) props = Some (Num n))
     /\ result_of (CoinGecko.prices req (answers r))
        = Ok (status_json 200 (Obj props)))
  /\ (In absent CoinMarketCap.CRYPTO_SYMBOLS ->
      no_provider_error data = true ->
      CoinMarketCapSpec.omits data absent = true ->
      (forall s, In s CoinMarketCap.CRYPTO_SYMBOLS -> s <> absent ->
          exists n, CoinMarketCapSpec.price_entry data s = Some n) ->
      exists props,
        result_of (CoinMarketCap.fetchCryptoPrices (answers r)) = Ok (Obj props)
        /\ keys props = map toLowerCase CoinMarketCap.CRYPTO_SYMBOLS
        /\ lookup (toLowerCase absent) props = Some (Str "N/A")
        /\ (forall s n, In s CoinMarketCap.CRYPTO_SYMBOLS -> s <> absent ->
              CoinMarketCapSpec.price_entry data s = Some n ->
              lookup (toLowerCase s) props = Some (Num n))
        /\ result_of (CoinMarketCap.prices req (answers r))
           = Ok (status_json 200 (Obj props))).
Proof.
  intros Hok Hj. split.
  - intros Habs Hom Hall.
    pose proof (CoinGeckoFacts.cg_entry_omitted data absent Hom) as Hna.
    assert (Hent : forall id, In id CoinGecko.CRYPTO_IDS ->
                     exists v, CoinGeckoSpec.entry data id = Ok v).
    { intros id Hin. destruct (string_dec id absent) as [->|Hne].
      - eexists; exact Hna.
      - destruct (Hall id Hin Hne) as (n & Hp & Hn).
        exists (Num n). now apply coingecko_entry_priced. }
    destruct (CoinGeckoFacts.cg_answered_price_map r data Hok Hj Hent)
      as (props & Hr & Hk & Hl & Hp).
    exists props. repeat split; auto.
    + destruct (Hl absent Habs) as (v & Hv & Hlk).
      rewrite Hna in Hv. inversion Hv; subst v.
      now rewrite coingecko_ids_lower.
    + intros id n Hin Hne Hpe.
      destruct (Hl id Hin) as (v & Hv & Hlk).
      destruct (Hall id Hin Hne) as (n' & Hp' & Hn').
      rewrite Hpe in Hp'. inversion Hp'; subst n'.
      rewrite (coingecko_entry_priced data id n Hpe Hn') in Hv.
      inversion Hv; subst v. now rewrite coingecko_ids_lower.
  - intros Habs Hs Hom Hall.
    pose proof (CoinMarketCapFacts.cmc_entry_omitted data absent Hom) as Hna.
    assert (Hent : forall s, In s CoinMarketCap.CRYPTO_SYMBOLS ->
                     exists v, CoinMarketCapSpec.entry data s = Ok v).
    { intros s Hin. destruct (string_dec s absent) as [->|Hne].
      - eexists; exact Hna.
      - destruct (Hall s Hin Hne) as (n & Hp).
        exists (Num n). now apply CoinMarketCapFacts.cmc_entry_priced. }
    destruct (CoinMarketCapFacts.cmc_answered_price_map r data Hok Hj
                (CoinMarketCapFacts.cmc_check_status_passes data Hs) Hent)
      as (props & Hr & Hk & Hl & Hp).
    exists props. repeat split; auto.
    + destruct (Hl absent Habs) as (v & Hv & Hlk).
      rewrite Hna in Hv. now inversion Hv; subst v.
    + intros s n Hin Hne Hpe.
      destruct (Hl s Hin) as (v & Hv & Hlk).
      rewrite (CoinMarketCapFacts.cmc_entry_priced data s n Hpe) in Hv.
      now inversion Hv; subst v.
Qed.

Lemma omitted_identifier_becomes_NA_witness :
  (exists props,
      result_of (CoinGecko.fetchCryptoPrices
                   (answers (success CoinGeckoSpec.payload_no_bitcoin)))
      = Ok (Obj props)
      /\ keys props = map toLowerCase CoinGecko.CRYPTO_IDS
      /\ lookup (toLowerCase "bitcoin") props = Some (Str "N/A")
      /\ (forall id n, In id CoinGecko.CRYPTO_IDS -> id <> "bitcoin" ->
            CoinGeckoSpec.price_entry CoinGeckoSpec.payload_no_bitcoin id
            = Some n ->
            lookup (toLowerCase id) props = Some (Num n))
      /\ result_of (CoinGecko.prices any_request
                      (answers (success CoinGeckoSpec.payload_no_bitcoin)))
         = Ok (status_json 200 (Obj props)))
  /\ (exists props,
      result_of (@CoinMarketCap.fetchCryptoPrices integer_coercions
                   (answers (success CoinMarketCapSpec.payload_no_btc)))
      = Ok (Obj props)
      /\ keys props = map toLowerCase CoinMarketCap.CRYPTO_SYMBOLS
      /\ lookup (toLowerCase "BTC") props = Some (Str "N/A")
      /\ (forall s n, In s CoinMarketCap.CRYPTO_SYMBOLS -> s <> "BTC" ->
            CoinMarketCapSpec.price_entry CoinMarketCapSpec.payload_no_btc s
            = Some n ->
            lookup (toLowerCase s) props = Some (Num n))
      /\ result_of (@CoinMarketCap.prices integer_coercions any_request
                      (answers (success CoinMarketCapSpec.payload_no_btc)))
         = Ok (status_json 200 (Obj props))).
Proof.
  split.
  - apply (proj1 (@omitted_identifier_becomes_NA integer_coercions
                    any_request (success CoinGeckoSpec.payload_no_bitcoin)
                    CoinGeckoSpec.payload_no_bitcoin "bitcoin"
                    eq_refl eq_refl)).
    + unfold CoinGecko.CRYPTO_IDS; simpl; tauto.
    + reflexivity.
    + intros id Hin Hne. simpl in Hin.
      destruct Hin as [<-|Hin]; [now elim Hne|].
      repeat (destruct Hin as [<-|Hin];
              [eexists; split; reflexivity|]).
      contradiction.
  - apply (proj2 (@omitted_identifier_becomes_NA integer_coercions
                    any_request (success CoinMarketCapSpec.payload_no_btc)
                    CoinMarketCapSpec.payload_no_btc "BTC"
                    eq_refl eq_refl)).
    + unfold CoinMarketCap.CRYPTO_SYMBOLS; simpl; tauto.
    + reflexivity.
    + reflexivity.
    + intros s Hin Hne. simpl in Hin.
      destruct Hin as [<-|Hin]; [now elim Hne|].
      repeat (destruct Hin as [<-|Hin]; [eexists; reflexivity|]).
      contradiction.
Defined.

(** C6.  The CoinGecko variant breaks it: the payload below omits
    [bitcoin] and has a price entry for every other configured identifier,
    [ethereum] at zero; the result maps [ethereum] to the string N/A, not
    to the number in the payload. *)
Lemma zero_price_beside_an_omission :
  CoinGeckoSpec.omits CoinGeckoSpec.payload_no_bitcoin_zero_ethereum "bitcoin"
  = true
  /\ (forall id, In id CoinGecko.CRYPTO_IDS -> id <> "bitcoin" ->
        exists n,
          CoinGeckoSpec.price_entry
            CoinGeckoSpec.payload_no_bitcoin_zero_ethereum id = Some n)
  /\ result_of (CoinGecko.fetchCryptoPrices
                  (answers (success
                     CoinGeckoSpec.payload_no_bitcoin_zero_ethereum)))
     = Ok (Obj [ ("bitcoin", Str "N/A"); ("ethereum", Str "N/A");
                 ("litecoin", num 90); ("shiba-inu", num 1);
                 ("dogecoin", num 2); ("tron", num 3); ("ripple", num 4);
                 ("the-open-network", num 5); ("tether", num 1) ])
  /\ ~ (exists props,
          result_of (CoinGecko.fetchCryptoPrices
                       (answers (success
                          CoinGeckoSpec.payload_no_bitcoin_zero_ethereum)))
          = Ok (Obj props)
          /\ lookup "bitcoin" props = Some (Str "N/A")
          /\ forall id n, In id CoinGecko.CRYPTO_IDS -> id <> "bitcoin" ->
               CoinGeckoSpec.price_entry
                 CoinGeckoSpec.payload_no_bitcoin_zero_ethereum id = Some n ->
               lookup (toLowerCase id) props = Some (Num n)).
Proof.
  split; [reflexivity|]. split; [|split].
  - intros id Hin Hne. simpl in Hin.
    destruct Hin as [<-|Hin]; [now elim Hne|].
    repeat (destruct Hin as [<-|Hin]; [eexists; reflexivity|]).
    contradiction.
  - reflexivity.
  - intros (props & Hr & _ & Hall).
    vm_compute in Hr. inversion Hr; subst props; clear Hr.
    assert (Hin : In "ethereum" CoinGecko.CRYPTO_IDS)
      by (unfold CoinGecko.CRYPTO_IDS; simpl; tauto).
    assert (Hne : "ethereum" <> "bitcoin") by discriminate.
    specialize (Hall "ethereum" (Finite 0) Hin Hne eq_refl).
    vm_compute in Hall. discriminate.
Qed.

(** ** Further runs *)

(** A network-level failure is logged and reported with status 500; the
    outbound call was attempted once. *)
Example network_failure_run :
  CoinGecko.prices any_request (unreachable "connect ECONNREFUSED")
  = ([ Fetched {| url := "https://api.coingecko.com/api/v3/simple/price?ids=bitcoin,ethereum,litecoin,shiba-inu,dogecoin,tron,ripple,the-open-network,tether&vs_currencies=usd";
                  headers := [] |};
       ConsoleError ["Error fetching crypto prices:"; "connect ECONNREFUSED"] ],
     Ok (status_json 500 (CoinGecko.ErrorResult "connect ECONNREFUSED"))).
Proof. reflexivity. Qed.

(** A 2xx answer whose body is not JSON surfaces the parse failure as
    [details]. *)
Example malformed_json_run :
  result_of
    (@CoinMarketCap.prices integer_coercions any_request
       (answers {| status := 200; statusText := "OK";
                   text := Ok "<html>";
                   json := Throw (Error "Unexpected token < in JSON at position 0") |}))
  = Ok (status_json 500
          (CoinMarketCap.ErrorResult "Unexpected token < in JSON at position 0")).
Proof. reflexivity. Qed.

(** In the CoinMarketCap variant a listing that is [null] is read through,
    and the whole request fails. *)
Example null_listing_run :
  result_of
    (@CoinMarketCap.prices integer_coercions any_request
       (answers (success (Obj [ ("data", Obj [ ("BTC", Arr [Null]) ]) ]))))
  = Ok (status_json 500
          (CoinMarketCap.ErrorResult
             "Cannot read properties of null (reading 'quote')")).
Proof. reflexivity. Qed.

(** The log of a successful fetch holds the one outbound call, with the
    API key header. *)
Example successful_fetch_log :
  log_of (@CoinMarketCap.fetchCryptoPrices integer_coercions
            (answers (success CoinMarketCapSpec.payload_full)))
  = [ Fetched {| url := "https://pro-api.coinmarketcap.com/v1/cryptocurrency/quotes/latest?symbol=BTC,ETH,LTC,SHIB,DOGE,TRX,XRP,TON,USDT&convert=USD";
                 headers := [ ("X-CMC_PRO_API_KEY", CoinMarketCap.CMC_API_KEY);
                              ("Accept", "application/json") ] |} ].
Proof. reflexivity. Qed.

(** ** Further properties: effects *)

Lemma cg_fetch_at up :
  CoinGecko.fetchCryptoPrices up
  = CoinGecko.fetchCryptoPrices (fun _ => up coingecko_request).
Proof.
  unfold CoinGecko.fetchCryptoPrices, CoinGecko.fetchCryptoPrices_try,
    CoinGecko.fetchCryptoPrices_catch, try_catch, bind, fetch.
  change (up {| url := _; headers := [] |}) with (up coingecko_request).
  destruct (up coingecko_request) as [r|e]; [|reflexivity].
  now destruct (ok r).
Qed.

Lemma cmc_fetch_at `{Coercions} up :
  CoinMarketCap.fetchCryptoPrices up
  = CoinMarketCap.fetchCryptoPrices (fun _ => up coinmarketcap_request).
Proof.
  unfold CoinMarketCap.fetchCryptoPrices, CoinMarketCap.fetchCryptoPrices_try,
    CoinMarketCap.fetchCryptoPrices_catch, try_catch, bind, fetch.
  change (up {| url := _; headers := _ |}) with (up coinmarketcap_request).
  destruct (up coinmarketcap_request) as [r|e]; [|reflexivity].
  now destruct (ok r).
Qed.

Lemma cg_fetch_log up :
  log_of (CoinGecko.fetchCryptoPrices up)
  = match result_of (CoinGecko.fetchCryptoPrices_try up) with
    | Ok _ => [Fetched coingecko_request]
    | Throw e => [ Fetched coingecko_request;
                   ConsoleError ["Error fetching crypto prices:"; message e] ]
    end.
Proof.
  unfold CoinGecko.fetchCryptoPrices, CoinGecko.fetchCryptoPrices_try,
    CoinGecko.fetchCryptoPrices_catch, try_catch, bind, fetch, lift, ret,
    throw, console_error, log_of, result_of.
  destruct (up _) as [r|e]; simpl; [|reflexivity].
  destruct (ok r); simpl.
  - destruct (json r) as [data|e]; simpl; [|reflexivity].
    now destruct (for_of CoinGecko.CRYPTO_IDS (CoinGecko.normalize data) []).
  - now destruct (text r).
Qed.

Lemma cmc_fetch_log `{Coercions} up :
  log_of (CoinMarketCap.fetchCryptoPrices up)
  = match result_of (CoinMarketCap.fetchCryptoPrices_try up) with
    | Ok _ => [Fetched coinmarketcap_request]
    | Throw e => [ Fetched coinmarketcap_request;
                   ConsoleError
                     ["Error fetching crypto prices from CoinMarketCap:";
                      message e] ]
    end.
Proof.
  unfold CoinMarketCap.fetchCryptoPrices, CoinMarketCap.fetchCryptoPrices_try,
    CoinMarketCap.fetchCryptoPrices_catch, try_catch, bind, fetch, lift, ret,
    throw, console_error, log_of, result_of.
  destruct (up _) as [r|e]; simpl; [|reflexivity].
  destruct (ok r); simpl.
  - destruct (json r) as [data|e]; simpl; [|reflexivity].
    destruct (CoinMarketCap.check_status data) as [[]|e]; simpl; [|reflexivity].
    now destruct (for_of CoinMarketCap.CRYPTO_SYMBOLS
                    (CoinMarketCap.normalize data) []).
  - now destruct (text r).
Qed.

Lemma cg_prices_log req up :
  log_of (CoinGecko.prices req up) = log_of (CoinGecko.fetchCryptoPrices up).
Proof.
  unfold CoinGecko.prices, bind, lift, ret, log_of.
  destruct (CoinGecko.fetchCryptoPrices up) as [l [v|e]]; simpl; [|reflexivity].
  destruct (get v "error") as [x|e]; simpl; [|apply app_nil_r].
  destruct (truthy x); simpl; apply app_nil_r.
Qed.

Lemma cmc_prices_log `{Coercions} req up :
  log_of (CoinMarketCap.prices req up)
  = log_of (CoinMarketCap.fetchCryptoPrices up).
Proof.
  unfold CoinMarketCap.prices, bind, lift, ret, log_of.
  destruct (CoinMarketCap.fetchCryptoPrices up) as [l [v|e]]; simpl;
    [|reflexivity].
  destruct (get v "error") as [x|e]; simpl; [|apply app_nil_r].
  destruct (truthy x); simpl; apply app_nil_r.
Qed.

(** X1. Whatever the upstream does, [fetchCryptoPrices] sends exactly its
    one request, first; when it returns a price map it writes nothing to
    the console, and when it returns an ErrorResult it writes one
    [console.error] line whose message is the [details] it returns. *)
Theorem fetch_effects `{Coercions} (up : Upstream) :
  ((exists props,
       result_of (CoinGecko.fetchCryptoPrices up) = Ok (Obj props)
       /\ keys props = CoinGecko.CRYPTO_IDS
       /\ log_of (CoinGecko.fetchCryptoPrices up) = [Fetched coingecko_request])
   \/ (exists details,
       result_of (CoinGecko.fetchCryptoPrices up)
       = Ok (CoinGecko.ErrorResult details)
       /\ log_of (CoinGecko.fetchCryptoPrices up)
          = [ Fetched coingecko_request;
              ConsoleError ["Error fetching crypto prices:"; details] ]))
  /\ ((exists props,
       result_of (CoinMarketCap.fetchCryptoPrices up) = Ok (Obj props)
       /\ keys props = map toLowerCase CoinMarketCap.CRYPTO_SYMBOLS
       /\ log_of (CoinMarketCap.fetchCryptoPrices up)
          = [Fetched coinmarketcap_request])
   \/ (exists details,
       result_of (CoinMarketCap.fetchCryptoPrices up)
       = Ok (CoinMarketCap.ErrorResult details)
       /\ log_of (CoinMarketCap.fetchCryptoPrices up)
          = [ Fetched coinmarketcap_request;
              ConsoleError ["Error fetching crypto prices from CoinMarketCap:";
                            details] ])).
Proof.
  split.
  - rewrite cg_fetch_log, CoinGeckoFacts.cg_fetch_result.
    destruct (result_of (CoinGecko.fetchCryptoPrices_try up)) as [v|e] eqn:Ht.
    + left. destruct (CoinGeckoFacts.cg_try_price_map up v Ht)
        as (props & -> & Hk).
      now exists props.
    + right. now exists (message e).
  - rewrite cmc_fetch_log, CoinMarketCapFacts.cmc_fetch_result.
    destruct (result_of (CoinMarketCap.fetchCryptoPrices_try up))
      as [v|e] eqn:Ht.
    + left. destruct (CoinMarketCapFacts.cmc_try_price_map up v Ht)
        as (props & -> & Hk).
      now exists props.
    + right. now exists (message e).
Qed.

(** X2. A [GET /prices] request has the effects of its fetch and no
    other: in particular it makes exactly one outbound call, whatever the
    upstream does. *)
Theorem prices_makes_one_outbound_call `{Coercions}
    (req : Incoming) (up : Upstream) :
  (log_of (CoinGecko.prices req up) = log_of (CoinGecko.fetchCryptoPrices up)
   /\ outbound_calls (log_of (CoinGecko.prices req up)) = 1%nat)
  /\ (log_of (CoinMarketCap.prices req up)
      = log_of (CoinMarketCap.fetchCryptoPrices up)
      /\ outbound_calls (log_of (CoinMarketCap.prices req up)) = 1%nat).
Proof.
  split.
  - rewrite cg_prices_log. split; [reflexivity|]. rewrite cg_fetch_log.
    now destruct (result_of (CoinGecko.fetchCryptoPrices_try up)).
  - rewrite cmc_prices_log. split; [reflexivity|]. rewrite cmc_fetch_log.
    now destruct (result_of (CoinMarketCap.fetchCryptoPrices_try up)).
Qed.

(** X3. What [GET /prices] answers and records depends on the upstream
    only through its answer to the one request the variant sends, and not
    at all on the inbound request. *)
Theorem prices_depends_on_one_answer `{Coercions}
    (req req' : Incoming) (up up' : Upstream) :
  (up coingecko_request = up' coingecko_request ->
   CoinGecko.prices req up = CoinGecko.prices req' up')
  /\ (up coinmarketcap_request = up' coinmarketcap_request ->
      CoinMarketCap.prices req up = CoinMarketCap.prices req' up').
Proof.
  split; intros Hup.
  - unfold CoinGecko.prices, bind.
    rewrite (cg_fetch_at up), (cg_fetch_at up'), Hup.
    destruct (CoinGecko.fetchCryptoPrices _) as [l [v|e]]; [|reflexivity].
    unfold lift. destruct (get v "error") as [x|e]; [|reflexivity].
    now destruct (truthy x).
  - unfold CoinMarketCap.prices, bind.
    rewrite (cmc_fetch_at up), (cmc_fetch_at up'), Hup.
    destruct (CoinMarketCap.fetchCryptoPrices _) as [l [v|e]]; [|reflexivity].
    unfold lift. destruct (get v "error") as [x|e]; [|reflexivity].
    now destruct (truthy x).
Qed.

Lemma prices_depends_on_one_answer_witness :
  CoinGecko.prices any_request (answers (success CoinGeckoSpec.payload_full))
  = CoinGecko.prices {| in_path := "/prices?x=1"; in_headers := [] |}
      (fun rq => if url rq =? url coingecko_request
                 then Ok (success CoinGeckoSpec.payload_full)
                 else Throw (Error "not found")).
Proof.
  apply (proj1 (@prices_depends_on_one_answer integer_coercions
                  any_request {| in_path := "/prices?x=1"; in_headers := [] |}
                  (answers (success CoinGeckoSpec.payload_full))
                  (fun rq => if url rq =? url coingecko_request
                             then Ok (success CoinGeckoSpec.payload_full)
                             else Throw (Error "not found")))).
  reflexivity.
Defined.

(** ** Further properties: failures *)

Lemma cg_prices_at req up :
  CoinGecko.prices req up
  = CoinGecko.prices req (fun _ => up coingecko_request).
Proof.
  unfold CoinGecko.prices, bind. rewrite (cg_fetch_at up).
  destruct (CoinGecko.fetchCryptoPrices _) as [l [v|e]]; [|reflexivity].
  unfold lift. destruct (get v "error") as [x|e]; [|reflexivity].
  now destruct (truthy x).
Qed.

Lemma cmc_prices_at `{Coercions} req up :
  CoinMarketCap.prices req up
  = CoinMarketCap.prices req (fun _ => up coinmarketcap_request).
Proof.
  unfold CoinMarketCap.prices, bind. rewrite (cmc_fetch_at up).
  destruct (CoinMarketCap.fetchCryptoPrices _) as [l [v|e]]; [|reflexivity].
  unfold lift. destruct (get v "error") as [x|e]; [|reflexivity].
  now destruct (truthy x).
Qed.

Lemma cg_try_unparsed r cause :
  ok r = true -> json r = Throw cause ->
  result_of (CoinGecko.fetchCryptoPrices_try (answers r)) = Throw cause.
Proof.
  intros Hok Hj.
  unfold CoinGecko.fetchCryptoPrices_try, bind, fetch, lift, ret, throw,
    result_of, answers.
  simpl. now rewrite Hok, Hj.
Qed.

Lemma cmc_try_unparsed `{Coercions} r cause :
  ok r = true -> json r = Throw cause ->
  result_of (CoinMarketCap.fetchCryptoPrices_try (answers r)) = Throw cause.
Proof.
  intros Hok Hj.
  unfold CoinMarketCap.fetchCryptoPrices_try, bind, fetch, lift, ret, throw,
    result_of, answers.
  simpl. now rewrite Hok, Hj.
Qed.

(** X4. When the upstream cannot be reached, [GET /prices] answers status
    500 with an ErrorResult whose [details] is the message of the network
    failure, unchanged. *)
Theorem network_failure_is_reported `{Coercions}
    (req : Incoming) (up : Upstream) (cause : Exn) :
  (forall rq, up rq = Throw cause) ->
  result_of (CoinGecko.prices req up)
  = Ok (status_json 500
          (Obj [ ("error", Str "Failed to fetch cryptocurrency prices");
                 ("details", Str (message cause)) ]))
  /\ result_of (CoinMarketCap.prices req up)
     = Ok (status_json 500
             (Obj [ ("error", Str "Failed to fetch cryptocurrency prices");
                    ("details", Str (message cause)) ])).
Proof.
  intros Hup. split.
  - rewrite cg_prices_at, Hup. reflexivity.
  - rewrite cmc_prices_at, Hup. reflexivity.
Qed.

Lemma network_failure_is_reported_witness :
  result_of (CoinGecko.prices any_request (unreachable "getaddrinfo ENOTFOUND"))
  = Ok (status_json 500
          (Obj [ ("error", Str "Failed to fetch cryptocurrency prices");
                 ("details", Str "getaddrinfo ENOTFOUND") ]))
  /\ result_of (@CoinMarketCap.prices integer_coercions any_request
                  (unreachable "getaddrinfo ENOTFOUND"))
     = Ok (status_json 500
             (Obj [ ("error", Str "Failed to fetch cryptocurrency prices");
                    ("details", Str "getaddrinfo ENOTFOUND") ])).
Proof.
  apply (@network_failure_is_reported integer_coercions any_request
           (unreachable "getaddrinfo ENOTFOUND")
           (Error "getaddrinfo ENOTFOUND")).
  intros rq; reflexivity.
Defined.

(** X5. When the upstream answers 2xx with a body that does not parse as
    JSON, [GET /prices] answers status 500 and [details] is the message of
    the parse failure. *)
Theorem malformed_json_is_reported `{Coercions}
    (req : Incoming) (r : Response) (cause : Exn) :
  ok r = true -> json r = Throw cause ->
  result_of (CoinGecko.prices req (answers r))
  = Ok (status_json 500
          (Obj [ ("error", Str "Failed to fetch cryptocurrency prices");
                 ("details", Str (message cause)) ]))
  /\ result_of (CoinMarketCap.prices req (answers r))
     = Ok (status_json 500
             (Obj [ ("error", Str "Failed to fetch cryptocurrency prices");
                    ("details", Str (message cause)) ])).
Proof.
  intros Hok Hj. split.
  - apply CoinGeckoFacts.cg_error_reply.
    now rewrite CoinGeckoFacts.cg_fetch_result, (cg_try_unparsed r cause Hok Hj).
  - apply CoinMarketCapFacts.cmc_error_reply.
    now rewrite CoinMarketCapFacts.cmc_fetch_result,
      (cmc_try_unparsed r cause Hok Hj).
Qed.

Lemma malformed_json_is_reported_witness :
  result_of (CoinGecko.prices any_request
               (answers (unparsable "Unexpected token < in JSON at position 0")))
  = Ok (status_json 500
          (Obj [ ("error", Str "Failed to fetch cryptocurrency prices");
                 ("details", Str "Unexpected token < in JSON at position 0") ]))
  /\ result_of (@CoinMarketCap.prices integer_coercions any_request
                  (answers (unparsable "Unexpected token < in JSON at position 0")))
     = Ok (status_json 500
             (Obj [ ("error", Str "Failed to fetch cryptocurrency prices");
                    ("details", Str "Unexpected token < in JSON at position 0") ])).
Proof.
  apply (@malformed_json_is_reported integer_coercions any_request
           (unparsable "Unexpected token < in JSON at position 0")
           (Error "Unexpected token < in JSON at position 0"));
    reflexivity.
Defined.

(** X6. When the upstream answers with a status outside 200-299 and the
    body of that answer cannot be read, [GET /prices] still answers status
    500; [details] is then the message of the read failure, and the status
    code of the upstream is not reported. *)
Theorem unreadable_error_body_is_reported `{Coercions}
    (req : Incoming) (r : Response) (cause : Exn) :
  ok r = false -> text r = Throw cause ->
  result_of (CoinGecko.prices req (answers r))
  = Ok (status_json 500
          (Obj [ ("error", Str "Failed to fetch cryptocurrency prices");
                 ("details", Str (message cause)) ]))
  /\ result_of (CoinMarketCap.prices req (answers r))
     = Ok (status_json 500
             (Obj [ ("error", Str "Failed to fetch cryptocurrency prices");
                    ("details", Str (message cause)) ])).
Proof.
  intros Hok Ht. split.
  - apply CoinGeckoFacts.cg_error_reply.
    now rewrite CoinGeckoFacts.cg_fetch_result,
      (CoinGeckoFacts.cg_try_failure r Hok), Ht.
  - apply CoinMarketCapFacts.cmc_error_reply.
    now rewrite CoinMarketCapFacts.cmc_fetch_result,
      (CoinMarketCapFacts.cmc_try_failure r Hok), Ht.
Qed.

Lemma unreadable_error_body_is_reported_witness :
  result_of (CoinGecko.prices any_request
               (answers (unreadable 502 "Bad Gateway" "Premature close")))
  = Ok (status_json 500
          (Obj [ ("error", Str "Failed to fetch cryptocurrency prices");
                 ("details", Str "Premature close") ]))
  /\ result_of (@CoinMarketCap.prices integer_coercions any_request
                  (answers (unreadable 502 "Bad Gateway" "Premature close")))
     = Ok (status_json 500
             (Obj [ ("error", Str "Failed to fetch cryptocurrency prices");
                    ("details", Str "Premature close") ])).
Proof.
  apply (@unreadable_error_body_is_reported integer_coercions any_request
           (unreadable 502 "Bad Gateway" "Premature close")
           (Error "Premature close")); reflexivity.
Defined.

(** ** Further properties: what the CoinGecko variant stores *)

Lemma lookup_In k x (ps : Props) : lookup k ps = Some x -> In (k, x) ps.
Proof.
  induction ps as [|[k' v'] ps IH]; simpl; [discriminate|].
  destruct (String.eqb_spec k k') as [->|_].
  - intros Hx; inversion Hx; subst. now left.
  - intros Hx. right. now apply IH.
Qed.

Lemma collect_In key entry ids : forall r k x,
  collect key entry ids = Ok r -> In (k, x) r ->
  exists s, In s ids /\ k = key s /\ entry s = Ok x.
Proof.
  induction ids as [|a ids IH]; simpl; intros r k x Hr Hin.
  - inversion Hr; subst. contradiction.
  - destruct (entry a) as [v|e] eqn:Ea; simpl in Hr; [|discriminate].
    destruct (collect key entry ids) as [r'|e] eqn:Er; simpl in Hr;
      [|discriminate].
    inversion Hr; subst; clear Hr. destruct Hin as [Heq|Hin].
    + inversion Heq; subst. exists a. auto.
    + destruct (IH r' k x eq_refl Hin) as (s & Hs & Hk & He).
      exists s. auto.
Qed.

Lemma collect_const key entry (f : string -> Value) ids :
  (forall s, In s ids -> entry s = Ok (f s)) ->
  collect key entry ids = Ok (map (fun s => (key s, f s)) ids).
Proof.
  induction ids as [|a ids IH]; simpl; intros Hall; [reflexivity|].
  rewrite (Hall a (or_introl eq_refl)); simpl.
  rewrite IH; [reflexivity|]. intros s Hs. apply Hall. now right.
Qed.

Lemma collect_throws key entry ids s e :
  In s ids -> entry s = Throw e ->
  exists e', collect key entry ids = Throw e'.
Proof.
  induction ids as [|a ids IH]; simpl; intros Hin He; [contradiction|].
  destruct (entry a) as [v|e0] eqn:Ea; simpl; [|now eexists].
  destruct Hin as [->|Hin]; [congruence|].
  destruct (IH Hin He) as (e' & ->). simpl. now eexists.
Qed.

Lemma cg_entry_value_truthy data id x :
  CoinGeckoSpec.entry data id = Ok x -> truthy x = true.
Proof.
  unfold CoinGeckoSpec.entry, and_, path.
  destruct (get data id) as [e|err]; simpl; [|discriminate].
  destruct (truthy e) eqn:Te; simpl.
  - destruct (get e CoinGecko.VS_CURRENCY) as [p|err]; simpl; [|discriminate].
    destruct (truthy p) eqn:Tp; intros Hx; inversion Hx; subst; auto.
  - rewrite Te. intros Hx; now inversion Hx.
Qed.

Lemma cg_nullish_loop_throws data :
  data = Null \/ data = Undefined ->
  for_of CoinGecko.CRYPTO_IDS (CoinGecko.normalize data) []
  = Throw (cannot_read data "bitcoin").
Proof. now intros [->| ->]. Qed.

(** X7. In the CoinGecko variant a 2xx answer whose body parses fails the
    request exactly when the parsed body is [null] (or [undefined]): then
    [GET /prices] answers 500; for every other parsed body, an object or
    not, it answers 200 with a price map over the configured
    identifiers. *)
Theorem coingecko_fails_only_on_null
    (req : Incoming) (r : Response) (data : Value) :
  ok r = true -> json r = Ok data ->
  ((data = Null \/ data = Undefined) ->
   exists details,
     result_of (CoinGecko.fetchCryptoPrices (answers r))
     = Ok (CoinGecko.ErrorResult details)
     /\ result_of (CoinGecko.prices req (answers r))
        = Ok (status_json 500 (CoinGecko.ErrorResult details)))
  /\ (data <> Null -> data <> Undefined ->
      exists props,
        result_of (CoinGecko.fetchCryptoPrices (answers r)) = Ok (Obj props)
        /\ keys props = CoinGecko.CRYPTO_IDS
        /\ result_of (CoinGecko.prices req (answers r))
           = Ok (status_json 200 (Obj props))).
Proof.
  intros Hok Hj. split.
  - intros Hnull. eexists.
    assert (Hr : result_of (CoinGecko.fetchCryptoPrices (answers r))
                 = Ok (CoinGecko.ErrorResult
                         (message (cannot_read data "bitcoin")))).
    { rewrite CoinGeckoFacts.cg_fetch_result,
        (CoinGeckoFacts.cg_try_answers r data Hok Hj),
        (cg_nullish_loop_throws data Hnull). reflexivity. }
    split; [exact Hr|]. now apply CoinGeckoFacts.cg_error_reply.
  - intros Hn Hu.
    destruct (CoinGeckoFacts.cg_answered_price_map r data Hok Hj)
      as (props & Hr & Hk & _ & Hp).
    { intros id _. now apply CoinGeckoFacts.cg_entry_total. }
    exists props. auto.
Qed.

Lemma coingecko_fails_only_on_null_witness :
  (exists details,
      result_of (CoinGecko.fetchCryptoPrices (answers (success Null)))
      = Ok (CoinGecko.ErrorResult details)
      /\ result_of (CoinGecko.prices any_request (answers (success Null)))
         = Ok (status_json 500 (CoinGecko.ErrorResult details)))
  /\ (exists props,
      result_of (CoinGecko.fetchCryptoPrices
                   (answers (success (Arr [num 1; num 2]))))
      = Ok (Obj props)
      /\ keys props = CoinGecko.CRYPTO_IDS
      /\ result_of (CoinGecko.prices any_request
                      (answers (success (Arr [num 1; num 2]))))
         = Ok (status_json 200 (Obj props))).
Proof.
  split.
  - apply (proj1 (coingecko_fails_only_on_null any_request (success Null)
                    Null eq_refl eq_refl)).
    now left.
  - apply (proj2 (coingecko_fails_only_on_null any_request
                    (success (Arr [num 1; num 2])) (Arr [num 1; num 2])
                    eq_refl eq_refl)); discriminate.
Defined.

(** X8. In the CoinGecko variant, whatever truthy value the payload holds
    under an identifier's [usd] is stored unchanged, a number or not: the
    values of a price map are not checked to be numbers. *)
Theorem coingecko_stores_any_truthy_value
    (r : Response) (data : Value) (id : string) (e p : Value) :
  ok r = true -> json r = Ok data ->
  In id CoinGecko.CRYPTO_IDS ->
  get data id = Ok e -> truthy e = true ->
  get e CoinGecko.VS_CURRENCY = Ok p -> truthy p = true ->
  exists props,
    result_of (CoinGecko.fetchCryptoPrices (answers r)) = Ok (Obj props)
    /\ lookup id props = Some p.
Proof.
  intros Hok Hj Hin He Te Hp Tp.
  assert (Hent : forall i, In i CoinGecko.CRYPTO_IDS ->
                   exists v, CoinGeckoSpec.entry data i = Ok v).
  { intros i _. apply CoinGeckoFacts.cg_entry_total; intros ->; discriminate. }
  destruct (CoinGeckoFacts.cg_answered_price_map r data Hok Hj Hent)
    as (props & Hr & _ & Hl & _).
  exists props. split; [assumption|].
  destruct (Hl id Hin) as (v & Hv & Hlk).
  rewrite (CoinGeckoFacts.cg_entry_truthy data id e p He Te Hp Tp) in Hv.
  now inversion Hv; subst v.
Qed.

Lemma coingecko_stores_any_truthy_value_witness :
  exists props,
    result_of (CoinGecko.fetchCryptoPrices
                 (answers (success (Obj [ ("tron", Obj [ ("usd", Str "n/k") ]) ]))))
    = Ok (Obj props)
    /\ lookup "tron" props = Some (Str "n/k").
Proof.
  apply (coingecko_stores_any_truthy_value
           (success (Obj [ ("tron", Obj [ ("usd", Str "n/k") ]) ]))
           (Obj [ ("tron", Obj [ ("usd", Str "n/k") ]) ]) "tron"
           (Obj [ ("usd", Str "n/k") ]) (Str "n/k")); try reflexivity.
  unfold CoinGecko.CRYPTO_IDS; simpl; tauto.
Defined.

(** X9. Every value of a price map that the CoinGecko variant returns is
    truthy, whatever the upstream did: the map never holds zero, [null],
    [false], the empty string or [undefined]. *)
Theorem coingecko_values_are_truthy
    (up : Upstream) (props : Props) (k : string) (x : Value) :
  result_of (CoinGecko.fetchCryptoPrices_try up) = Ok (Obj props) ->
  lookup k props = Some x ->
  truthy x = true.
Proof.
  intros Ht Hl.
  destruct (CoinGeckoFacts.cg_try_inv up _ Ht) as (data & props' & Hloop & Heq).
  inversion Heq; subst props'; clear Heq.
  rewrite CoinGeckoFacts.cg_loop_collect in Hloop.
  destruct (collect_In _ _ _ _ k x Hloop (lookup_In _ _ _ Hl))
    as (s & _ & _ & He).
  exact (cg_entry_value_truthy data s x He).
Qed.

Lemma coingecko_values_are_truthy_witness :
  truthy (Str "N/A") = true.
Proof.
  apply (coingecko_values_are_truthy
           (answers (success CoinGeckoSpec.payload_zero_tether))
           [ ("bitcoin", num 30000); ("ethereum", num 2000);
             ("litecoin", num 90); ("shiba-inu", num 1);
             ("dogecoin", num 2); ("tron", num 3); ("ripple", num 4);
             ("the-open-network", num 5); ("tether", Str "N/A") ]
           "tether" (Str "N/A")); reflexivity.
Defined.

(** ** Further properties: what the CoinMarketCap variant stores *)

Section CoinMarketCapEntries.
Context `{Coercions}.

Lemma cmc_returned_entries r data props :
  ok r = true -> json r = Ok data ->
  result_of (CoinMarketCap.fetchCryptoPrices_try (answers r)) = Ok (Obj props) ->
  forall s, In s CoinMarketCap.CRYPTO_SYMBOLS ->
    exists v, CoinMarketCapSpec.entry data s = Ok v
              /\ lookup (toLowerCase s) props = Some v.
Proof.
  intros Hok Hj Ht s Hin.
  rewrite (CoinMarketCapFacts.cmc_try_answers r data Hok Hj) in Ht.
  destruct (CoinMarketCap.check_status data) as [[]|e]; simpl in Ht;
    [|discriminate].
  destruct (for_of CoinMarketCap.CRYPTO_SYMBOLS
              (CoinMarketCap.normalize data) []) as [ps|e] eqn:L;
    simpl in Ht; [|discriminate].
  inversion Ht; subst ps; clear Ht.
  rewrite CoinMarketCapFacts.cmc_loop_collect in L.
  exact (collect_lookup toLowerCase _ _ _ s L
           CoinMarketCapFacts.cmc_symbols_nodup Hin).
Qed.

Lemma cmc_entry_quoted ps m symbol listing rest q u :
  lookup "data" ps = Some (Obj m) ->
  lookup symbol m = Some (Arr (Obj listing :: rest)) ->
  lookup "quote" listing = Some (Obj q) ->
  lookup CoinMarketCap.CONVERT_CURRENCY q = Some (Obj u) ->
  CoinMarketCapSpec.entry (Obj ps) symbol
  = Ok match lookup "price" u with Some p => p | None => Undefined end.
Proof.
  intros Ld Ls Lq Lu.
  unfold CoinMarketCapSpec.entry, CoinMarketCap.has_quote, and_, path,
    gt_zero, ToNumber.
  repeat (simpl; rewrite ?Ld, ?Ls, ?Lq, ?Lu).
  now destruct (lookup "price" u).
Qed.

Lemma cmc_entry_empty ps m symbol :
  lookup "data" ps = Some (Obj m) ->
  lookup symbol m = Some (Arr []) ->
  CoinMarketCapSpec.entry (Obj ps) symbol = Ok (Str "N/A").
Proof.
  intros Ld Ls.
  unfold CoinMarketCapSpec.entry, CoinMarketCap.has_quote, and_, path,
    gt_zero, ToNumber.
  repeat (simpl; rewrite ?Ld, ?Ls). reflexivity.
Qed.

Lemma cmc_entry_no_quote ps m symbol listing rest :
  lookup "data" ps = Some (Obj m) ->
  lookup symbol m = Some (Arr (Obj listing :: rest)) ->
  lookup "quote" listing = None ->
  CoinMarketCapSpec.entry (Obj ps) symbol = Ok (Str "N/A").
Proof.
  intros Ld Ls Lq.
  unfold CoinMarketCapSpec.entry, CoinMarketCap.has_quote, and_, path,
    gt_zero, ToNumber.
  repeat (simpl; rewrite ?Ld, ?Ls, ?Lq). reflexivity.
Qed.

Lemma cmc_entry_no_currency ps m symbol listing rest q :
  lookup "data" ps = Some (Obj m) ->
  lookup symbol m = Some (Arr (Obj listing :: rest)) ->
  lookup "quote" listing = Some (Obj q) ->
  lookup CoinMarketCap.CONVERT_CURRENCY q = None ->
  CoinMarketCapSpec.entry (Obj ps) symbol = Ok (Str "N/A").
Proof.
  intros Ld Ls Lq Lu.
  unfold CoinMarketCapSpec.entry, CoinMarketCap.has_quote, and_, path,
    gt_zero, ToNumber.
  repeat (simpl; rewrite ?Ld, ?Ls, ?Lq, ?Lu). reflexivity.
Qed.

Lemma cmc_entry_null_listing ps m symbol rest :
  lookup "data" ps = Some (Obj m) ->
  lookup symbol m = Some (Arr (Null :: rest)) ->
  CoinMarketCapSpec.entry (Obj ps) symbol = Throw (cannot_read Null "quote").
Proof.
  intros Ld Ls.
  unfold CoinMarketCapSpec.entry, CoinMarketCap.has_quote, and_, path,
    gt_zero, ToNumber.
  repeat (simpl; rewrite ?Ld, ?Ls). reflexivity.
Qed.

Lemma cmc_entry_no_data data d symbol :
  get data "data" = Ok d -> truthy d = false ->
  CoinMarketCapSpec.entry data symbol = Ok (Str "N/A").
Proof.
  intros Hd Td.
  unfold CoinMarketCapSpec.entry, CoinMarketCap.has_quote, and_.
  rewrite Hd. unfold rbind. now rewrite !Td.
Qed.

End CoinMarketCapEntries.

(** X10. In the CoinMarketCap variant the price itself is not checked:
    when the first listing of a symbol quotes USD, the value stored is
    whatever that quote holds under [price], and [undefined] when it holds
    nothing there; the string N/A is not used in that case. *)
Theorem coinmarketcap_price_is_not_checked `{Coercions}
    (r : Response) (ps m : Props) (symbol : string)
    (listing : Props) (rest : list Value) (q u props : Props) :
  ok r = true -> json r = Ok (Obj ps) ->
  In symbol CoinMarketCap.CRYPTO_SYMBOLS ->
  lookup "data" ps = Some (Obj m) ->
  lookup symbol m = Some (Arr (Obj listing :: rest)) ->
  lookup "quote" listing = Some (Obj q) ->
  lookup "USD" q = Some (Obj u) ->
  result_of (CoinMarketCap.fetchCryptoPrices_try (answers r)) = Ok (Obj props) ->
  lookup (toLowerCase symbol) props
  = Some match lookup "price" u with Some p => p | None => Undefined end.
Proof.
  intros Hok Hj Hin Ld Ls Lq Lu Ht.
  destruct (cmc_returned_entries r (Obj ps) props Hok Hj Ht symbol Hin)
    as (v & Hv & Hl).
  rewrite (cmc_entry_quoted ps m symbol listing rest q u Ld Ls Lq Lu) in Hv.
  now inversion Hv; subst v.
Qed.

Lemma coinmarketcap_price_is_not_checked_witness :
  lookup (toLowerCase "TON")
    [ ("btc", Str "N/A"); ("eth", Str "N/A"); ("ltc", Str "N/A");
      ("shib", Str "N/A"); ("doge", Str "N/A"); ("trx", Str "N/A");
      ("xrp", Str "N/A"); ("ton", Undefined); ("usdt", Str "N/A") ]
  = Some match lookup "price" [ ("volume_24h", num 7) ] with
         | Some p => p
         | None => Undefined
         end.
Proof.
  apply (@coinmarketcap_price_is_not_checked integer_coercions
           (success payload_ton_unpriced)
           [ CoinMarketCapSpec.status_fine;
             ("data",
              Obj [ ("TON", Arr [ Obj [ ("quote",
                       Obj [ ("USD", Obj [ ("volume_24h", num 7) ]) ]) ] ]) ]) ]
           [ ("TON", Arr [ Obj [ ("quote",
                Obj [ ("USD", Obj [ ("volume_24h", num 7) ]) ]) ] ]) ]
           "TON"
           [ ("quote", Obj [ ("USD", Obj [ ("volume_24h", num 7) ]) ]) ]
           []
           [ ("USD", Obj [ ("volume_24h", num 7) ]) ]
           [ ("volume_24h", num 7) ]); try reflexivity.
  unfold CoinMarketCap.CRYPTO_SYMBOLS; simpl; tauto.
Defined.

(** X11. In the CoinMarketCap variant a symbol whose listing array is
    empty, whose first listing has no [quote], or whose quote has no [USD]
    is mapped to the string N/A in the price map returned. *)
Theorem coinmarketcap_unquoted_symbol_is_NA `{Coercions}
    (r : Response) (ps m : Props) (symbol : string) (props : Props) :
  ok r = true -> json r = Ok (Obj ps) ->
  In symbol CoinMarketCap.CRYPTO_SYMBOLS ->
  lookup "data" ps = Some (Obj m) ->
  (lookup symbol m = Some (Arr [])
   \/ exists listing rest,
        lookup symbol m = Some (Arr (Obj listing :: rest))
        /\ (lookup "quote" listing = None
            \/ exists q, lookup "quote" listing = Some (Obj q)
                         /\ lookup "USD" q = None)) ->
  result_of (CoinMarketCap.fetchCryptoPrices_try (answers r)) = Ok (Obj props) ->
  lookup (toLowerCase symbol) props = Some (Str "N/A").
Proof.
  intros Hok Hj Hin Ld Hshape Ht.
  destruct (cmc_returned_entries r (Obj ps) props Hok Hj Ht symbol Hin)
    as (v & Hv & Hl).
  assert (He : CoinMarketCapSpec.entry (Obj ps) symbol = Ok (Str "N/A")).
  { destruct Hshape as [Ls|(listing & rest & Ls & [Lq|(q & Lq & Lu)])].
    - exact (cmc_entry_empty ps m symbol Ld Ls).
    - exact (cmc_entry_no_quote ps m symbol listing rest Ld Ls Lq).
    - exact (cmc_entry_no_currency ps m symbol listing rest q Ld Ls Lq Lu). }
  rewrite He in Hv. now inversion Hv; subst v.
Qed.

Lemma coinmarketcap_unquoted_symbol_is_NA_witness :
  lookup (toLowerCase "LTC")
    [ ("btc", Str "N/A"); ("eth", Str "N/A"); ("ltc", Str "N/A");
      ("shib", Str "N/A"); ("doge", Str "N/A"); ("trx", Str "N/A");
      ("xrp", Str "N/A"); ("ton", Str "N/A"); ("usdt", Str "N/A") ]
  = Some (Str "N/A").
Proof.
  apply (@coinmarketcap_unquoted_symbol_is_NA integer_coercions
           (success payload_unquoted)
           [ CoinMarketCapSpec.status_fine;
             ("data",
              Obj [ ("BTC", Arr []);
                    ("ETH", Arr [ Obj [ ("name", Str "Ethereum") ] ]);
                    ("LTC", Arr [ Obj [ ("quote",
                       Obj [ ("EUR", Obj [ ("price", num 80) ]) ]) ] ]) ]) ]
           [ ("BTC", Arr []);
             ("ETH", Arr [ Obj [ ("name", Str "Ethereum") ] ]);
             ("LTC", Arr [ Obj [ ("quote",
                Obj [ ("EUR", Obj [ ("price", num 80) ]) ]) ] ]) ]
           "LTC"); try reflexivity.
  - unfold CoinMarketCap.CRYPTO_SYMBOLS; simpl; tauto.
  - right. do 2 eexists. split; [reflexivity|].
    right. eexists. split; reflexivity.
Defined.

(** X12. In the CoinMarketCap variant one configured symbol whose first
    listing is [null] fails the whole request: [fetchCryptoPrices] returns
    an ErrorResult and [GET /prices] answers 500, whatever the payload holds
    for the other symbols. *)
Theorem coinmarketcap_null_listing_fails_request `{Coercions}
    (req : Incoming) (r : Response) (ps m : Props) (symbol : string)
    (rest : list Value) :
  ok r = true -> json r = Ok (Obj ps) ->
  In symbol CoinMarketCap.CRYPTO_SYMBOLS ->
  lookup "data" ps = Some (Obj m) ->
  lookup symbol m = Some (Arr (Null :: rest)) ->
  exists details,
    result_of (CoinMarketCap.fetchCryptoPrices (answers r))
    = Ok (CoinMarketCap.ErrorResult details)
    /\ result_of (CoinMarketCap.prices req (answers r))
       = Ok (status_json 500 (CoinMarketCap.ErrorResult details)).
Proof.
  intros Hok Hj Hin Ld Ls.
  destruct (collect_throws toLowerCase (CoinMarketCapSpec.entry (Obj ps))
              CoinMarketCap.CRYPTO_SYMBOLS symbol _ Hin
              (cmc_entry_null_listing ps m symbol rest Ld Ls)) as (e & He).
  assert (Ht : exists e',
             result_of (CoinMarketCap.fetchCryptoPrices_try (answers r))
             = Throw e').
  { rewrite (CoinMarketCapFacts.cmc_try_answers r (Obj ps) Hok Hj).
    destruct (CoinMarketCap.check_status (Obj ps)) as [[]|e0]; simpl;
      [|now eexists].
    rewrite CoinMarketCapFacts.cmc_loop_collect, He. simpl. now eexists. }
  destruct Ht as (e' & Ht).
  assert (Hr : result_of (CoinMarketCap.fetchCryptoPrices (answers r))
               = Ok (CoinMarketCap.ErrorResult (message e')))
    by now rewrite CoinMarketCapFacts.cmc_fetch_result, Ht.
  exists (message e'). split; [exact Hr|].
  now apply CoinMarketCapFacts.cmc_error_reply.
Qed.

Lemma coinmarketcap_null_listing_fails_request_witness :
  exists details,
    result_of (@CoinMarketCap.fetchCryptoPrices integer_coercions
                 (answers (success payload_null_listing)))
    = Ok (CoinMarketCap.ErrorResult details)
    /\ result_of (@CoinMarketCap.prices integer_coercions any_request
                    (answers (success payload_null_listing)))
       = Ok (status_json 500 (CoinMarketCap.ErrorResult details)).
Proof.
  apply (@coinmarketcap_null_listing_fails_request integer_coercions
           any_request (success payload_null_listing)
           [ CoinMarketCapSpec.status_fine;
             ("data", Obj [ ("BTC", Arr [Null]);
                            CoinMarketCapSpec.quoted "ETH" 2000 ]) ]
           [ ("BTC", Arr [Null]); CoinMarketCapSpec.quoted "ETH" 2000 ]
           "BTC" []); try reflexivity.
  unfold CoinMarketCap.CRYPTO_SYMBOLS; simpl; tauto.
Defined.

Lemma cmc_check_status_message `{Coercions} ps st ec m :
  lookup "status" ps = Some (Obj st) ->
  lookup "error_code" st = Some ec -> strict_ne_zero ec = true ->
  lookup "error_message" st = Some (Str m) ->
  CoinMarketCap.check_status (Obj ps)
  = Throw (Error ("CoinMarketCap API internal error: " ++ m)).
Proof.
  intros Ls Le Hz Lm. unfold CoinMarketCap.check_status, and_, path.
  repeat (simpl; rewrite ?Ls, ?Le, ?Hz, ?Lm). reflexivity.
Qed.

Lemma cmc_check_status_rejects `{Coercions} ps s ec :
  lookup "status" ps = Some s -> truthy s = true ->
  get s "error_code" = Ok ec -> strict_ne_zero ec = true ->
  exists e, CoinMarketCap.check_status (Obj ps) = Throw e.
Proof.
  intros Ls Ts He Hz. unfold CoinMarketCap.check_status, and_, path.
  destruct (truthy_get_total s "error_message" Ts) as (em & Hem).
  repeat (simpl; rewrite ?Ls, ?Ts, ?He, ?Hz, ?Hem).
  destruct (ToString em); simpl; now eexists.
Qed.

(** X13. In the CoinMarketCap variant, when the embedded status has an
    error code other than the number zero and a string [error_message],
    [details] is that message behind the fixed prefix, and [GET /prices]
    answers 500. *)
Theorem coinmarketcap_provider_message_is_surfaced `{Coercions}
    (req : Incoming) (r : Response) (ps st : Props) (ec : Value) (m : string) :
  ok r = true -> json r = Ok (Obj ps) ->
  lookup "status" ps = Some (Obj st) ->
  lookup "error_code" st = Some ec -> strict_ne_zero ec = true ->
  lookup "error_message" st = Some (Str m) ->
  result_of (CoinMarketCap.prices req (answers r))
  = Ok (status_json 500
          (Obj [ ("error", Str "Failed to fetch cryptocurrency prices");
                 ("details", Str ("CoinMarketCap API internal error: " ++ m)) ])).
Proof.
  intros Hok Hj Ls Le Hz Lm.
  apply CoinMarketCapFacts.cmc_error_reply.
  rewrite CoinMarketCapFacts.cmc_fetch_result,
    (CoinMarketCapFacts.cmc_try_answers r (Obj ps) Hok Hj),
    (cmc_check_status_message ps st ec m Ls Le Hz Lm).
  reflexivity.
Qed.

Lemma coinmarketcap_provider_message_is_surfaced_witness :
  result_of (@CoinMarketCap.prices integer_coercions any_request
               (answers (success CoinMarketCapSpec.payload_bad_key)))
  = Ok (status_json 500
          (Obj [ ("error", Str "Failed to fetch cryptocurrency prices");
                 ("details",
                  Str ("CoinMarketCap API internal error: "
                       ++ "This API Key is invalid.")) ])).
Proof.
  apply (@coinmarketcap_provider_message_is_surfaced integer_coercions
           any_request (success CoinMarketCapSpec.payload_bad_key)
           [ ("status", Obj [ ("error_code", num 1001);
                              ("error_message", Str "This API Key is invalid.") ]) ]
           [ ("error_code", num 1001);
             ("error_message", Str "This API Key is invalid.") ]
           (num 1001) "This API Key is invalid."); reflexivity.
Defined.

(** X14. In the CoinMarketCap variant any truthy [status] whose
    [error_code] is not the number zero fails the request, a missing error
    code included: the price data of such a body is never served. *)
Theorem coinmarketcap_status_needs_zero_code `{Coercions}
    (req : Incoming) (r : Response) (ps : Props) (s ec : Value) :
  ok r = true -> json r = Ok (Obj ps) ->
  lookup "status" ps = Some s -> truthy s = true ->
  get s "error_code" = Ok ec -> strict_ne_zero ec = true ->
  exists details,
    result_of (CoinMarketCap.fetchCryptoPrices (answers r))
    = Ok (CoinMarketCap.ErrorResult details)
    /\ result_of (CoinMarketCap.prices req (answers r))
       = Ok (status_json 500 (CoinMarketCap.ErrorResult details)).
Proof.
  intros Hok Hj Ls Ts He Hz.
  destruct (cmc_check_status_rejects ps s ec Ls Ts He Hz) as (e & Hc).
  assert (Hr : result_of (CoinMarketCap.fetchCryptoPrices (answers r))
               = Ok (CoinMarketCap.ErrorResult (message e))).
  { rewrite CoinMarketCapFacts.cmc_fetch_result,
      (CoinMarketCapFacts.cmc_try_answers r (Obj ps) Hok Hj), Hc.
    reflexivity. }
  exists (message e). split; [exact Hr|].
  now apply CoinMarketCapFacts.cmc_error_reply.
Qed.

Lemma coinmarketcap_status_needs_zero_code_witness :
  exists details,
    result_of (@CoinMarketCap.fetchCryptoPrices integer_coercions
                 (answers (success payload_status_without_code)))
    = Ok (CoinMarketCap.ErrorResult details)
    /\ result_of (@CoinMarketCap.prices integer_coercions any_request
                    (answers (success payload_status_without_code)))
       = Ok (status_json 500 (CoinMarketCap.ErrorResult details)).
Proof.
  apply (@coinmarketcap_status_needs_zero_code integer_coercions any_request
           (success payload_status_without_code)
           [ ("status", Obj [ ("timestamp", Str "2024-01-01T00:00:00.000Z") ]);
             ("data", Obj [ CoinMarketCapSpec.quoted "BTC" 30000 ]) ]
           (Obj [ ("timestamp", Str "2024-01-01T00:00:00.000Z") ])
           Undefined); reflexivity.
Defined.

Lemma cg_entry_absent data id x :
  get data id = Ok x -> truthy x = false ->
  CoinGeckoSpec.entry data id = Ok (Str "N/A").
Proof.
  intros Hx Tx. unfold CoinGeckoSpec.entry, and_.
  rewrite Hx; simpl. rewrite Tx; simpl. now rewrite Tx.
Qed.

(** X15. A 2xx body in which nothing is found is not a failure:
    [GET /prices] answers 200 with every configured identifier mapped to
    the string N/A.  In the CoinGecko variant this is any parsed body none
    of whose configured identifiers holds a truthy value; in the
    CoinMarketCap variant, an object without provider error whose [data]
    is missing or falsy. *)
Theorem empty_payload_gives_all_NA `{Coercions}
    (req : Incoming) (r : Response) (data : Value) :
  ok r = true -> json r = Ok data ->
  ((forall id, In id CoinGecko.CRYPTO_IDS ->
       exists x, get data id = Ok x /\ truthy x = false) ->
   result_of (CoinGecko.prices req (answers r))
   = Ok (status_json 200
           (nothing_found (fun id => id) CoinGecko.CRYPTO_IDS)))
  /\ (no_provider_error data = true ->
      (exists d, get data "data" = Ok d /\ truthy d = false) ->
      result_of (CoinMarketCap.prices req (answers r))
      = Ok (status_json 200
              (nothing_found toLowerCase CoinMarketCap.CRYPTO_SYMBOLS))).
Proof.
  intros Hok Hj. split.
  - intros Hall.
    assert (Hr : result_of (CoinGecko.fetchCryptoPrices (answers r))
                 = Ok (nothing_found (fun id => id) CoinGecko.CRYPTO_IDS)).
    { rewrite CoinGeckoFacts.cg_fetch_result,
        (CoinGeckoFacts.cg_try_answers r data Hok Hj),
        CoinGeckoFacts.cg_loop_collect.
      rewrite (collect_const (fun id => id) (CoinGeckoSpec.entry data)
                 (fun _ => Str "N/A")); [reflexivity|].
      intros id Hin. destruct (Hall id Hin) as (x & Hx & Tx).
      exact (cg_entry_absent data id x Hx Tx). }
    exact (proj2 (CoinGeckoFacts.cg_price_map_reply req _ _ Hr eq_refl)).
  - intros Hs (d & Hd & Td).
    assert (Hr : result_of (CoinMarketCap.fetchCryptoPrices (answers r))
                 = Ok (nothing_found toLowerCase CoinMarketCap.CRYPTO_SYMBOLS)).
    { rewrite CoinMarketCapFacts.cmc_fetch_result,
        (CoinMarketCapFacts.cmc_try_answers r data Hok Hj),
        (CoinMarketCapFacts.cmc_check_status_passes data Hs).
      simpl. rewrite CoinMarketCapFacts.cmc_loop_collect.
      rewrite (collect_const toLowerCase (CoinMarketCapSpec.entry data)
                 (fun _ => Str "N/A")); [reflexivity|].
      intros s _. exact (cmc_entry_no_data data d s Hd Td). }
    exact (proj2 (CoinMarketCapFacts.cmc_price_map_reply req _ _ Hr eq_refl)).
Qed.

Lemma empty_payload_gives_all_NA_witness :
  result_of (CoinGecko.prices any_request (answers (success (Obj []))))
  = Ok (status_json 200 (nothing_found (fun id => id) CoinGecko.CRYPTO_IDS))
  /\ result_of (@CoinMarketCap.prices integer_coercions any_request
                  (answers (success (Obj []))))
     = Ok (status_json 200
             (nothing_found toLowerCase CoinMarketCap.CRYPTO_SYMBOLS)).
Proof.
  split.
  - apply (proj1 (@empty_payload_gives_all_NA integer_coercions any_request
                    (success (Obj [])) (Obj []) eq_refl eq_refl)).
    intros id _. exists Undefined. split; reflexivity.
  - apply (proj2 (@empty_payload_gives_all_NA integer_coercions any_request
                    (success (Obj [])) (Obj []) eq_refl eq_refl));
      [reflexivity|].
    exists Undefined. split; reflexivity.
Defined.

(** ** Further properties: start-up *)



(** The CoinMarketCap variant serves a price of zero as the number zero. *)
Example coinmarketcap_serves_a_zero_price :
  exists props,
    result_of (@CoinMarketCap.fetchCryptoPrices integer_coercions
                 (answers (success CoinMarketCapSpec.payload_full)))
    = Ok (Obj props)
    /\ CoinMarketCapSpec.price_entry CoinMarketCapSpec.payload_full "USDT"
       = Some (Finite 0)
    /\ lookup "usdt" props = Some (Num (Finite 0)).
Proof. eexists. repeat split; reflexivity. Qed.
